(** * Attendance-marking backend (src/App.js, server part): a shallow embedding

    The development follows the server code of the repository:
    the two oracle helpers [faceppCompare] and [computeCosineSimilarity],
    the [Attendance] collection with its unique compound index, the helper
    [createNotification], and the two request handlers
    [POST /api/student/attendance] (embedding based) and
    [POST /api/student/attendance-image] (image based).

    JavaScript numbers are IEEE-754 binary64 values, so they are modelled by
    Rocq's primitive floats, which are the same format with the same
    rounding.  [Date] values are integers (milliseconds since the epoch). *)

From Stdlib Require Import ZArith List Bool String Ascii Floats DecimalString Lia.
From Stdlib Require Import DecimalPos DecimalZ.
Import ListNotations.

Set Warnings "-inexact-float".

Local Open Scope string_scope.
Local Open Scope Z_scope.

(* ================================================================== *)
(** ** JavaScript built-ins used by the handlers *)

Module Js.

(** [String.prototype.toUpperCase], on the ASCII letters that course codes
    are made of.  It is the JavaScript function on strings of ASCII
    characters ([isAscii]) only: a cased letter outside ASCII is left as it
    is here and mapped there. *)
Definition upperChar (c : ascii) : ascii :=
  let n := nat_of_ascii c in
  if (Nat.leb 97 n && Nat.leb n 122)%bool then ascii_of_nat (n - 32) else c.

Fixpoint toUpperCase (s : string) : string :=
  match s with
  | EmptyString => EmptyString
  | String c rest => String (upperChar c) (toUpperCase rest)
  end.

(** Every character of [s] is an ASCII character (code below 128). *)
Definition isAscii (s : string) : bool :=
  forallb (fun c => Nat.ltb (nat_of_ascii c) 128) (list_ascii_of_string s).

(** [Number.MAX_SAFE_INTEGER], 2^53 - 1: up to it every integer is a
    JavaScript number. *)
Definition MAX_SAFE_INTEGER : Z := 9007199254740991.

(** [Array.prototype.includes] on an array of strings. *)
Definition includes (xs : list string) (x : string) : bool :=
  existsb (String.eqb x) xs.

(** A [Date] is its time value: milliseconds since 1970-01-01T00:00:00Z. *)
Definition Date := Z.

Definition msPerMinute : Z := 1000 * 60.
Definition msPerHour : Z := 3600000.
Definition msPerDay : Z := 86400000.

(** Day number of a time value (ECMAScript [Day(t)]). *)
Definition Day (t : Z) : Z := t / msPerDay.

(** Year, month and day of month of a day number in the proleptic
    Gregorian calendar. *)
Definition civilFromDays (days : Z) : Z * Z * Z :=
  let z := days + 719468 in
  let era := z / 146097 in
  let doe := z - era * 146097 in
  let yoe := (doe - doe / 1460 + doe / 36524 - doe / 146096) / 365 in
  let doy := doe - (365 * yoe + yoe / 4 - yoe / 100) in
  let mp := (5 * doy + 2) / 153 in
  let d := doy - (153 * mp + 2) / 5 + 1 in
  let m := if mp <? 10 then mp + 3 else mp - 9 in
  let y := yoe + era * 400 + (if m <=? 2 then 1 else 0) in
  (y, m, d).

Definition digitChar (n : Z) : ascii := ascii_of_nat (48 + Z.to_nat n).

(** The [w] low decimal digits of [n], most significant first. *)
Fixpoint fixedDigits (w : nat) (n : Z) : string :=
  match w with
  | O => EmptyString
  | S w' => fixedDigits w' (n / 10) ++ String (digitChar (n mod 10)) EmptyString
  end.

Definition isoYear (y : Z) : string :=
  if ((0 <=? y) && (y <=? 9999))%bool then fixedDigits 4 y
  else if y <? 0 then "-" ++ fixedDigits 6 (- y)
  else "+" ++ fixedDigits 6 y.

(** [d.toISOString().split('T')[0]]: the calendar date of [d] in UTC,
    as YYYY-MM-DD. *)
Definition toISODate (t : Date) : string :=
  let '(y, m, d) := civilFromDays (Day t) in
  isoYear y ++ "-" ++ fixedDigits 2 m ++ "-" ++ fixedDigits 2 d.

(** The server's time zone, as a fixed offset from UTC in milliseconds
    (local time = UTC + offset). *)
Definition LocalTime (tzOffset : Z) (t : Date) : Z := t + tzOffset.

(** The calendar date of [t] on the server's local clock. *)
Definition localDate (tzOffset : Z) (t : Date) : string :=
  toISODate (LocalTime tzOffset t).

(** [d.setHours(h, 0, 0, 0)]: same local day, local time h:00:00.000. *)
Definition setHours (tzOffset : Z) (h : Z) (t : Date) : Date :=
  Day (LocalTime tzOffset t) * msPerDay + h * msPerHour - tzOffset.

End Js.

(* ================================================================== *)
(** ** Similarity oracle *)

Module Oracle.

Local Open Scope float_scope.

(** State of the [for] loop of [computeCosineSimilarity] after the
    elements read so far: either the function has already returned [0]
    on a NaN element, or the three accumulators. *)
Inductive loopState : Type :=
| ReturnedZero
| Acc (dot normA normB : float).

(** The loop runs over the indices of [a]; a position past the end of
    [b] reads [undefined], which [Number] turns into NaN. *)
Fixpoint cosineLoop (a b : list float) (dot normA normB : float) : loopState :=
  match a with
  | [] => Acc dot normA normB
  | va :: a' =>
      match b with
      | [] => ReturnedZero
      | vb :: b' =>
          if (PrimFloat.is_nan va || PrimFloat.is_nan vb)%bool then ReturnedZero
          else cosineLoop a' b' (dot + va * vb) (normA + va * va) (normB + vb * vb)
      end
  end.

Definition computeCosineSimilarity (a b : list float) : float :=
  if (Nat.eqb (List.length a) 0 || Nat.eqb (List.length b) 0
      || negb (Nat.eqb (List.length a) (List.length b)))%bool
  then 0
  else
    match cosineLoop a b 0 0 0 with
    | ReturnedZero => 0
    | Acc dot normA normB =>
        if (PrimFloat.eqb normA 0 || PrimFloat.eqb normB 0)%bool then 0
        else dot / (PrimFloat.sqrt normA * PrimFloat.sqrt normB)
    end.

(** A component that is +0 or -0. *)
Definition isZero (x : float) : Prop := x = 0 \/ x = (-0).

(** What the HTTP call of [faceppCompare] can give back. *)
Inductive compareReply : Type :=
| RequestFailed                 (* axios rejects: network error, timeout, non-2xx *)
| NoData                        (* resp.data is missing *)
| ConfidenceNotNumber           (* resp.data.confidence is not a number *)
| Confidence (c : float).       (* resp.data.confidence is the number c *)

(** [faceppCompare]: [None] when it throws. *)
Definition faceppCompare (reply : compareReply) : option float :=
  match reply with
  | Confidence c => Some (c / 100)
  | _ => None
  end.

End Oracle.

(* ================================================================== *)
(** ** Collections (mongoose models) *)

Module User.

Inductive Role : Type := admin | student.

(** The fields of [userSchema] that the attendance handlers read. *)
Record doc : Type := {
  role : Role;
  studentId : string;
  studentName : string;
  enrolledCourses : list string;
  faceEncodings : list float;
  faceToken : option string;
  isActive : bool
}.

Definition isStudent (u : doc) : bool :=
  match role u with student => true | admin => false end.

(** [User.findOne({ studentId, role: 'student', isActive: true })] *)
Definition findOne (users : list doc) (sid : string) : option doc :=
  find (fun u => String.eqb (studentId u) sid && isStudent u && isActive u)%bool users.

End User.

Module Course.

Record doc : Type := {
  courseCode : string;
  isActive : bool
}.

(** [Course.findOne({ courseCode, isActive: true })] *)
Definition findOne (courses : list doc) (code : string) : option doc :=
  find (fun c => String.eqb (courseCode c) code && isActive c)%bool courses.

End Course.

Module Attendance.

Inductive Status : Type := present | absent | late | excused.

(** [attendanceSchema], without the pass-through fields (location,
    deviceInfo, ipAddress, method, notes, timestamps) that no decision
    depends on. *)
Record doc : Type := {
  studentId : string;
  studentName : string;
  courseCode : string;
  date : string;
  status : Status;
  confidenceScore : float;
  isLate : bool;
  lateMinutes : Z
}.

(** The fields of the unique compound index
    [{ studentId: 1, courseCode: 1, date: 1 }]. *)
Definition key : Type := string * string * string.

Definition keyOf (d : doc) : key := (studentId d, courseCode d, date d).

Definition key_eqb (k1 k2 : key) : bool :=
  let '(s1, c1, d1) := k1 in
  let '(s2, c2, d2) := k2 in
  (String.eqb s1 s2 && String.eqb c1 c2 && String.eqb d1 d2)%bool.

(** The collection, most recent insert first. *)
Definition ledger : Type := list doc.

(** [Attendance.findOne({ studentId, courseCode, date })] *)
Definition findOne (l : ledger) (k : key) : option doc :=
  find (fun d => key_eqb (keyOf d) k) l.

(** Why a write did not happen. *)
Inductive writeError : Type :=
| DuplicateKey        (* MongoServerError, code 11000: the unique index *)
| ValidationFailed.   (* mongoose ValidationError: the schema *)

(** The database side of an insert: the unique index decides. *)
Definition insertOne (d : doc) (l : ledger) : ledger + writeError :=
  match findOne l (keyOf d) with
  | Some _ => inr DuplicateKey
  | None => inl (d :: l)
  end.

(** Schema validation run by mongoose before the insert is sent:
    [required] on studentId, courseCode and date (an empty string does
    not satisfy it), [min: 0] and [max: 1] on confidenceScore (NaN does
    not cast to a Number, and fails both comparisons here). *)
Definition validate (d : doc) : bool :=
  (negb (String.eqb (studentId d) "")
   && negb (String.eqb (courseCode d) "")
   && negb (String.eqb (date d) "")
   && PrimFloat.leb 0 (confidenceScore d)
   && PrimFloat.leb (confidenceScore d) 1)%bool.

(** [new Attendance(d).save()] *)
Definition save (d : doc) (l : ledger) : ledger + writeError :=
  if validate d then insertOne d l else inr ValidationFailed.

(** [Attendance.deleteMany({ studentId })] (student deletion). *)
Definition deleteMany (sid : string) (l : ledger) : ledger :=
  filter (fun d => negb (String.eqb (studentId d) sid)) l.

(** Number of records stored under a key. *)
Definition countKey (k : key) (l : ledger) : nat :=
  List.length (filter (fun d => key_eqb (keyOf d) k) l).

End Attendance.

Module Notification.

Record doc : Type := {
  userId : string;
  title : string;
  message : string;
  type : string;
  courseCode : string
}.

(** [required] on userId, title and message. *)
Definition validate (n : doc) : bool :=
  (negb (String.eqb (userId n) "")
   && negb (String.eqb (title n) "")
   && negb (String.eqb (message n) ""))%bool.

End Notification.

Record Store : Type := {
  users : list User.doc;
  courses : list Course.doc;
  attendance : Attendance.ledger;
  notifications : list Notification.doc
}.

Definition withAttendance (l : Attendance.ledger) (s : Store) : Store :=
  {| users := users s; courses := courses s;
     attendance := l; notifications := notifications s |}.

Definition withNotifications (ns : list Notification.doc) (s : Store) : Store :=
  {| users := users s; courses := courses s;
     attendance := attendance s; notifications := ns |}.

(* ================================================================== *)
(** ** Requests, responses and the handler monad *)

(** [res.status(code).json({ success: false, error })], or
    [res.json({ success: true, message, data })] built from the saved
    document. *)
Inductive Response : Type :=
| Failure (status : Z) (error : string)
| Success (message : string) (data : Attendance.doc).

(** What a handler does to its collaborators, in the order it does it. *)
Inductive Event : Type :=
| UserLookup (studentId : string)
| CourseLookup (courseCode : string)
| AttendanceLookup (k : Attendance.key)
| OracleCall (similarity : option float)   (* [None]: the oracle threw *)
| AttendanceSave (d : Attendance.doc) (outcome : option Attendance.writeError)
| NotificationSave (n : Notification.doc) (stored : bool).

(** Values thrown inside a handler. *)
Inductive Thrown : Type :=
| WriteError (e : Attendance.writeError)
| OracleError
| SinkError.

(** [error.code] *)
Definition errorCode (e : Thrown) : option Z :=
  match e with
  | WriteError Attendance.DuplicateKey => Some 11000
  | _ => None
  end.

Record World : Type := {
  store : Store;
  trace : list Event
}.

(** Everything one request meets that is not in the store. *)
Record Env : Type := {
  tzOffset : Z;                 (* server time zone, ms east of UTC *)
  clockToday : Js.Date;         (* the [new Date()] of [today] *)
  clockCurrent : Js.Date;       (* the [new Date()] of [currentTime] *)
  clockStart : Js.Date;         (* the [new Date()] of [classStartTime] *)
  provider : Oracle.compareReply;
  lateCommits : nat;            (* records committed by concurrent requests
                                   after this request's duplicate lookup was
                                   answered: the newest entries of the ledger *)
  sinkFails : bool              (* the notification write is refused *)
}.

Inductive Step (A : Type) : Type :=
| Next (a : A)
| Return (r : Response)         (* [return res. ...] *)
| Raise (e : Thrown).           (* [throw] *)

Arguments Next {A} a.
Arguments Return {A} r.
Arguments Raise {A} e.

Definition Handler (A : Type) : Type := World -> Step A * World.

Definition ret {A} (a : A) : Handler A := fun w => (Next a, w).

Definition bind {A B} (m : Handler A) (k : A -> Handler B) : Handler B :=
  fun w =>
    match m w with
    | (Next a, w') => k a w'
    | (Return r, w') => (Return r, w')
    | (Raise e, w') => (Raise e, w')
    end.

Notation "x <- m ;; k" := (bind m (fun x => k))
  (at level 61, m at next level, right associativity).
Notation "m ;;; k" := (bind m (fun _ => k))
  (at level 61, right associativity).

Definition respond {A} (r : Response) : Handler A := fun w => (Return r, w).

Definition throw {A} (e : Thrown) : Handler A := fun w => (Raise e, w).

Definition tryCatch {A} (m : Handler A) (h : Thrown -> Handler A) : Handler A :=
  fun w =>
    match m w with
    | (Raise e, w') => h e w'
    | other => other
    end.

(** [if (c) { m }] *)
Definition when (c : bool) (m : Handler unit) : Handler unit :=
  if c then m else ret tt.

Definition emit (e : Event) : Handler unit :=
  fun w => (Next tt, {| store := store w; trace := trace w ++ [e] |}).

Definition getStore : Handler Store := fun w => (Next (store w), w).

Definition putStore (s : Store) : Handler unit :=
  fun w => (Next tt, {| store := s; trace := trace w |}).

(** [!s] for a request field that should be a string. *)
Definition missing (s : option string) : bool :=
  match s with
  | None => true
  | Some v => String.eqb v ""
  end.

Definition text (s : option string) : string :=
  match s with Some v => v | None => "" end.

(* ------------------------------------------------------------------ *)
(** *** Collection operations inside a handler *)

Definition userFindOne (sid : string) : Handler (option User.doc) :=
  s <- getStore ;;
  emit (UserLookup sid) ;;;
  ret (User.findOne (users s) sid).

Definition courseFindOne (code : string) : Handler (option Course.doc) :=
  s <- getStore ;;
  emit (CourseLookup code) ;;;
  ret (Course.findOne (courses s) code).

(** The duplicate lookup is answered from the ledger as it was at that
    moment: without the [lateCommits] newest records. *)
Definition attendanceFindOne (env : Env) (k : Attendance.key)
  : Handler (option Attendance.doc) :=
  s <- getStore ;;
  emit (AttendanceLookup k) ;;;
  ret (Attendance.findOne (skipn (lateCommits env) (attendance s)) k).

Definition attendanceSave (d : Attendance.doc) : Handler Attendance.doc :=
  s <- getStore ;;
  match Attendance.save d (attendance s) with
  | inl l =>
      emit (AttendanceSave d None) ;;;
      putStore (withAttendance l s) ;;;
      ret d
  | inr e =>
      emit (AttendanceSave d (Some e)) ;;;
      throw (WriteError e)
  end.

Definition notificationSave (env : Env) (n : Notification.doc) : Handler unit :=
  s <- getStore ;;
  if (Notification.validate n && negb (sinkFails env))%bool then
    emit (NotificationSave n true) ;;;
    putStore (withNotifications (n :: notifications s) s)
  else
    emit (NotificationSave n false) ;;;
    throw SinkError.

(** [createNotification]: the [catch] logs and swallows. *)
Definition createNotification (env : Env)
    (userId title message type courseCode : string) : Handler unit :=
  tryCatch
    (notificationSave env
       {| Notification.userId := userId;
          Notification.title := title;
          Notification.message := message;
          Notification.type := type;
          Notification.courseCode := courseCode |})
    (fun _ => ret tt).

(* ------------------------------------------------------------------ *)
(** *** Oracle calls inside a handler *)

Definition callCosine (a b : list float) : Handler float :=
  let similarity := Oracle.computeCosineSimilarity a b in
  emit (OracleCall (Some similarity)) ;;;
  ret similarity.

Definition callFacepp (env : Env) : Handler float :=
  match Oracle.faceppCompare (provider env) with
  | Some similarity => emit (OracleCall (Some similarity)) ;;; ret similarity
  | None => emit (OracleCall None) ;;; throw OracleError
  end.

(* ================================================================== *)
(** ** The two attendance handlers *)

Definition SIMILARITY_THRESHOLD : float := 0.85%float.

(** [String(n)] for an integer [n] that a JavaScript number holds
    exactly and prints in full: every digit is printed up to 10^21, and
    every integer up to 2^53 - 1 in absolute value is held exactly. *)
Definition showInt (n : Z) : string :=
  DecimalString.NilZero.string_of_int (Z.to_int n).

(** The block that classifies the arrival; it is the same text in both
    handlers.  Result: (status, isLate, lateMinutes). *)
Definition lateness (currentTime classStartTime : Js.Date)
  : Attendance.Status * bool * Z :=
  if classStartTime <? currentTime then
    let diffMinutes := (currentTime - classStartTime) / Js.msPerMinute in
    if 15 <? diffMinutes then (Attendance.late, true, diffMinutes)
    else (Attendance.present, false, 0)
  else (Attendance.present, false, 0).

Definition classStartTime (env : Env) : Js.Date :=
  Js.setHours (tzOffset env) 9 (clockStart env).

(** What both handlers do once the similarity is known and accepted. *)
Definition commitAttendance (env : Env) (studentId courseCode today : string)
    (student : User.doc) (similarity : float) : Handler Response :=
  let currentTime := clockCurrent env in
  let '(status, isLate, lateMinutes) := lateness currentTime (classStartTime env) in
  savedAttendance <- attendanceSave
    {| Attendance.studentId := studentId;
       Attendance.studentName := User.studentName student;
       Attendance.courseCode := Js.toUpperCase courseCode;
       Attendance.date := today;
       Attendance.status := status;
       Attendance.confidenceScore := similarity;
       Attendance.isLate := isLate;
       Attendance.lateMinutes := lateMinutes |} ;;
  when isLate
    (createNotification env studentId "Late Attendance Recorded"
       ("You were marked late for " ++ courseCode ++ " by "
          ++ showInt lateMinutes ++ " minutes.")
       "warning" (Js.toUpperCase courseCode)) ;;;
  ret (Success
         ("Attendance marked successfully" ++ (if isLate then " (Late)" else ""))
         savedAttendance).

(** The checks that both handlers run first, in this order: course code
    present, (image handler only: image present), student found, enrolled,
    course found, no record yet for today. *)
Definition resolveStudent (studentId : string) : Handler User.doc :=
  found <- userFindOne studentId ;;
  match found with
  | None => respond (Failure 404 "Student not found")
  | Some student => ret student
  end.

Definition requireEnrolledCourse (student : User.doc) (courseCode : string)
  : Handler unit :=
  when (negb (Js.includes (User.enrolledCourses student) (Js.toUpperCase courseCode)))
    (respond (Failure 400 "You are not enrolled in this course")) ;;;
  course <- courseFindOne (Js.toUpperCase courseCode) ;;
  match course with
  | None => respond (Failure 404 "Course not found")
  | Some _ => ret tt
  end.

Definition requireNotMarked (env : Env) (studentId courseCode today : string)
  : Handler unit :=
  existingAttendance <-
    attendanceFindOne env (studentId, Js.toUpperCase courseCode, today) ;;
  match existingAttendance with
  | Some _ => respond (Failure 400 "Attendance already marked for today in this course")
  | None => ret tt
  end.

(** The parts of a request that the decisions depend on.  The body is
    taken to be well typed: [courseCode] and [imageBase64] are strings when
    present, [faceData] is an array of numbers when it is an array, and the
    pass-through fields [location] and [notes], which are only copied into
    the document, are left out. *)
Record EmbeddingRequest : Type := {
  e_studentId : string;               (* req.user.studentId *)
  e_courseCode : option string;       (* req.body.courseCode *)
  e_faceData : option (list float)    (* req.body.faceData, when it is an array *)
}.

Record ImageRequest : Type := {
  i_studentId : string;
  i_courseCode : option string;
  i_imageBase64 : option string
}.

(** The [try] block of [app.post('/api/student/attendance', ...)]. *)
Definition markAttendanceBody (req : EmbeddingRequest) (env : Env) : Handler Response :=
  let courseCode := text (e_courseCode req) in
  let studentId := e_studentId req in
  when (missing (e_courseCode req))
    (respond (Failure 400 "Course code is required")) ;;;
  student <- resolveStudent studentId ;;
  requireEnrolledCourse student courseCode ;;;
  let today := Js.toISODate (clockToday env) in
  requireNotMarked env studentId courseCode today ;;;
  when (Nat.eqb (List.length (User.faceEncodings student)) 0)
    (respond (Failure 400
       "No registered face encodings found. Please register your face first.")) ;;;
  match e_faceData req with
  | None => respond (Failure 400 "Invalid or missing face data for verification")
  | Some faceData =>
      when (negb (Nat.eqb (List.length faceData)
                    (List.length (User.faceEncodings student))))
        (respond (Failure 400 "Invalid or missing face data for verification")) ;;;
      similarity <- callCosine (User.faceEncodings student) faceData ;;
      when (PrimFloat.ltb similarity SIMILARITY_THRESHOLD)
        (respond (Failure 400 "Face verification failed. Please try again.")) ;;;
      commitAttendance env studentId courseCode today student similarity
  end.

(** The [try] block of [app.post('/api/student/attendance-image', ...)]. *)
Definition markAttendanceImageBody (req : ImageRequest) (env : Env) : Handler Response :=
  let courseCode := text (i_courseCode req) in
  let studentId := i_studentId req in
  when (missing (i_courseCode req))
    (respond (Failure 400 "Course code is required")) ;;;
  when (missing (i_imageBase64 req))
    (respond (Failure 400 "imageBase64 is required")) ;;;
  student <- resolveStudent studentId ;;
  requireEnrolledCourse student courseCode ;;;
  let today := Js.toISODate (clockToday env) in
  requireNotMarked env studentId courseCode today ;;;
  when (missing (User.faceToken student))
    (respond (Failure 400 "No registered face found. Please register your face first.")) ;;;
  similarity <-
    tryCatch (callFacepp env)
      (fun _ => respond (Failure 400 "Face verification failed. Please try again.")) ;;
  when (PrimFloat.ltb similarity SIMILARITY_THRESHOLD)
    (respond (Failure 400 "Face verification failed. Please try again.")) ;;;
  commitAttendance env studentId courseCode today student similarity.

(** What serving one request gives: the response sent, the store left
    behind, and what the handler did, in order. *)
Record Result : Type := {
  response : Response;
  after : Store;
  events : list Event
}.

(** Runs a [try] block on a store; [onError] is the [catch] block. *)
Definition handle (body : Handler Response) (onError : Thrown -> Response)
  : Store -> Result :=
  fun s =>
    match body {| store := s; trace := [] |} with
    | (Next r, w) => {| response := r; after := store w; events := trace w |}
    | (Return r, w) => {| response := r; after := store w; events := trace w |}
    | (Raise e, w) => {| response := onError e; after := store w; events := trace w |}
    end.

(** [app.post('/api/student/attendance', ...)] *)
Definition markAttendance (req : EmbeddingRequest) (env : Env) : Store -> Result :=
  handle (markAttendanceBody req env)
    (fun error =>
       match errorCode error with
       | Some 11000 => Failure 400 "Attendance already marked for today"
       | _ => Failure 500 "Failed to mark attendance. Please try again."
       end).

(** [app.post('/api/student/attendance-image', ...)] *)
Definition markAttendanceImage (req : ImageRequest) (env : Env) : Store -> Result :=
  handle (markAttendanceImageBody req env)
    (fun _ => Failure 500 "Failed to mark attendance. Please try again.").

(** A submission on either endpoint. *)
Inductive Request : Type :=
| Embedding (req : EmbeddingRequest)
| Image (req : ImageRequest).

Definition serve (r : Request) (env : Env) : Store -> Result :=
  match r with
  | Embedding req => markAttendance req env
  | Image req => markAttendanceImage req env
  end.

(** The student and the course code a submission names. *)
Definition studentOf (r : Request) : string :=
  match r with
  | Embedding req => e_studentId req
  | Image req => i_studentId req
  end.

Definition courseOf (r : Request) : string :=
  match r with
  | Embedding req => text (e_courseCode req)
  | Image req => text (i_courseCode req)
  end.

(** The ledger key both handlers build for a submission: [studentId],
    [courseCode.toUpperCase()] and [today]. *)
Definition keyOfRequest (r : Request) (env : Env) : Attendance.key :=
  (studentOf r, Js.toUpperCase (courseOf r), Js.toISODate (clockToday env)).

(* ================================================================== *)
(** ** The ledger invariant and the states the server can reach *)

(** At most one record per (studentId, courseCode, date). *)
Definition uniquePerKey (l : Attendance.ledger) : Prop :=
  forall k, (Attendance.countKey k l <= 1)%nat.

(** Concurrent inserts are serialised by the store; [ds] is the order in
    which it takes them.  Result: the outcome of each insert, in that
    order, and the ledger afterwards. *)
Fixpoint commitAll (ds : list Attendance.doc) (l : Attendance.ledger)
  : list (option Attendance.writeError) * Attendance.ledger :=
  match ds with
  | [] => ([], l)
  | d :: rest =>
      match Attendance.insertOne d l with
      | inl l' => let '(outs, final) := commitAll rest l' in (None :: outs, final)
      | inr e => let '(outs, final) := commitAll rest l in (Some e :: outs, final)
      end
  end.

Definition succeeded (outs : list (option Attendance.writeError)) : nat :=
  List.length (filter (fun o => match o with None => true | Some _ => false end) outs).

(** The stores the server can be in.  Only three routes write the
    attendance collection: the two marking handlers and the student
    deletion; every other route leaves it alone. *)
Inductive reachable : Store -> Prop :=
| reach_start : forall us cs ns,
    reachable {| users := us; courses := cs; attendance := []; notifications := ns |}
| reach_mark : forall s r env,
    reachable s -> reachable (after (serve r env s))
| reach_deleteStudent : forall s sid,
    reachable s ->
    reachable (withAttendance (Attendance.deleteMany sid (attendance s)) s)
| reach_other : forall s us cs ns,
    reachable s ->
    reachable {| users := us; courses := cs;
                 attendance := attendance s; notifications := ns |}.

(** Submissions served one after the other, in the order in which their
    commits reach the store.  A submission whose duplicate lookup ran
    before some of the earlier commits has [lateCommits] set accordingly:
    that is how concurrent submissions are told apart from successive
    ones. *)
Fixpoint serveAll (batch : list (Request * Env)) (s : Store)
  : list Response * Store :=
  match batch with
  | [] => ([], s)
  | (r, env) :: rest =>
      let res := serve r env s in
      let '(rs, final) := serveAll rest (after res) in
      (response res :: rs, final)
  end.

Definition isSuccess (r : Response) : bool :=
  match r with
  | Success _ _ => true
  | Failure _ _ => false
  end.

Definition accepted (rs : list Response) : nat :=
  List.length (filter isSuccess rs).

(* ================================================================== *)
(** ** Reading a handler's event list *)

Definition isLookup (e : Event) : Prop :=
  match e with
  | UserLookup _ | CourseLookup _ | AttendanceLookup _ => True
  | _ => False
  end.

Definition isWrite (e : Event) : Prop :=
  match e with
  | AttendanceSave _ _ | NotificationSave _ _ => True
  | _ => False
  end.

Definition isLookupb (e : Event) : bool :=
  match e with
  | UserLookup _ | CourseLookup _ | AttendanceLookup _ => true
  | _ => false
  end.

Definition isWriteb (e : Event) : bool :=
  match e with
  | AttendanceSave _ _ | NotificationSave _ _ => true
  | _ => false
  end.

(** Lookups, then at most one oracle call, then writes only. *)
Fixpoint oracleLast (es : list Event) : bool :=
  match es with
  | [] => true
  | OracleCall _ :: rest => forallb isWriteb rest
  | e :: rest => isLookupb e && oracleLast rest
  end.

(** At most one successful attendance write, and notification writes only
    after it. *)
Fixpoint notifyAfterCommit (committed : bool) (es : list Event) : bool :=
  match es with
  | [] => true
  | AttendanceSave _ None :: rest => notifyAfterCommit true rest
  | NotificationSave _ _ :: rest => committed && notifyAfterCommit committed rest
  | _ :: rest => notifyAfterCommit committed rest
  end.

(** The rejections issued by the checks that come before the oracle. *)
Definition priorRejections : list Response :=
  [ Failure 400 "Course code is required";
    Failure 400 "imageBase64 is required";
    Failure 404 "Student not found";
    Failure 400 "You are not enrolled in this course";
    Failure 404 "Course not found";
    Failure 400 "Attendance already marked for today in this course";
    Failure 400 "No registered face encodings found. Please register your face first.";
    Failure 400 "No registered face found. Please register your face first.";
    Failure 400 "Invalid or missing face data for verification" ].

Definition verificationFailed : Response :=
  Failure 400 "Face verification failed. Please try again.".

Definition withSink (fails : bool) (env : Env) : Env :=
  {| tzOffset := tzOffset env; clockToday := clockToday env;
     clockCurrent := clockCurrent env; clockStart := clockStart env;
     provider := provider env; lateCommits := lateCommits env;
     sinkFails := fails |}.

(* ================================================================== *)
(** ** Two statements of the specification, word for word

    They are compared with the handlers below. *)

(** "If now <= T, or 0 < now - T <= 15 minutes, the record is present, not
    late, with lateMinutes 0; if now - T > 15 minutes, it is late, with
    lateMinutes equal to now - T in whole minutes." *)
Definition classifiedByElapsedTime : Prop :=
  forall (r : Request) (env : Env) (s : Store) (msg : string) (d : Attendance.doc),
    response (serve r env s) = Success msg d ->
    let now := clockCurrent env in
    let T := classStartTime env in
    ((now <= T \/ 0 < now - T <= 15 * Js.msPerMinute) ->
       Attendance.status d = Attendance.present
       /\ Attendance.isLate d = false
       /\ Attendance.lateMinutes d = 0)
    /\ (15 * Js.msPerMinute < now - T ->
       Attendance.status d = Attendance.late
       /\ Attendance.isLate d = true
       /\ Attendance.lateMinutes d = (now - T) / Js.msPerMinute).

(** "The duplicate lookup and the persisted record both use the day
    derived from server local time at the moment of submission." *)
Definition dateKeyIsLocalDate : Prop :=
  forall (r : Request) (env : Env) (s : Store),
    (forall k, In (AttendanceLookup k) (events (serve r env s)) ->
               snd k = Js.localDate (tzOffset env) (clockToday env))
    /\ (forall d o, In (AttendanceSave d o) (events (serve r env s)) ->
               Attendance.date d = Js.localDate (tzOffset env) (clockToday env)).

(* ================================================================== *)
(** ** A concrete deployment used in the examples *)

Module Sample.

(** A stored 64-dimensional embedding and three captured ones. *)
Definition enrolled : list float := 1%float :: repeat 0%float 63.
Definition probe : list float :=
  17%float :: 10%float :: 3%float :: 1%float :: 1%float :: repeat 0%float 59.
Definition opposite : list float := (-1)%float :: repeat 0%float 63.
Definition overflowing : list float := infinity :: repeat 0%float 63.
Definition three : list float :=
  1%float :: 1%float :: 1%float :: repeat 0%float 61.

Definition alice : User.doc :=
  {| User.role := User.student; User.studentId := "S001";
     User.studentName := "Alice"; User.enrolledCourses := ["ICT651"];
     User.faceEncodings := enrolled; User.faceToken := Some "tok";
     User.isActive := true |}.

Definition bob : User.doc :=
  {| User.role := User.student; User.studentId := "S002";
     User.studentName := "Bob"; User.enrolledCourses := ["ICT651"];
     User.faceEncodings := three; User.faceToken := None;
     User.isActive := true |}.

Definition ict651 : Course.doc :=
  {| Course.courseCode := "ICT651"; Course.isActive := true |}.

Definition store0 : Store :=
  {| users := [alice; bob]; courses := [ict651];
     attendance := []; notifications := [] |}.

(** The server runs at UTC+5.  [nine] is 09:00 local time on
    2024-01-02, that is 2024-01-02T04:00:00Z. *)
Definition zone : Z := 5 * Js.msPerHour.
Definition nine : Js.Date := 1704168000000.

(** All clock reads give [t]; the provider answers confidence [c]. *)
Definition at_ (t : Js.Date) (c : float) : Env :=
  {| tzOffset := zone; clockToday := t; clockCurrent := t; clockStart := t;
     provider := Oracle.Confidence c; lateCommits := 0; sinkFails := false |}.

(** The same, for a request whose duplicate lookup missed the newest
    record of the ledger. *)
Definition racing (t : Js.Date) (c : float) : Env :=
  {| tzOffset := zone; clockToday := t; clockCurrent := t; clockStart := t;
     provider := Oracle.Confidence c; lateCommits := 1; sinkFails := false |}.

Definition embedding (faceData : list float) : Request :=
  Embedding {| e_studentId := "S001"; e_courseCode := Some "ict651";
               e_faceData := Some faceData |}.

Definition image : Request :=
  Image {| i_studentId := "S001"; i_courseCode := Some "ict651";
           i_imageBase64 := Some "AAAA" |}.

Definition bobEmbedding : Request :=
  Embedding {| e_studentId := "S002"; e_courseCode := Some "ICT651";
               e_faceData := Some three |}.

Definition otherCourse : Request :=
  Embedding {| e_studentId := "S001"; e_courseCode := Some "ICT999";
               e_faceData := Some probe |}.

Definition minutes (n : Z) : Z := n * Js.msPerMinute.

(** The same, with the notification store unreachable. *)
Definition sinkDown (t : Js.Date) (c : float) : Env :=
  {| tzOffset := zone; clockToday := t; clockCurrent := t; clockStart := t;
     provider := Oracle.Confidence c; lateCommits := 0; sinkFails := true |}.

(** Alice's record for ICT651 on 2024-01-02. *)
Definition record (status : Attendance.Status) (score : float)
    (isLate : bool) (lateMinutes : Z) : Attendance.doc :=
  {| Attendance.studentId := "S001"; Attendance.studentName := "Alice";
     Attendance.courseCode := "ICT651"; Attendance.date := "2024-01-02";
     Attendance.status := status; Attendance.confidenceScore := score;
     Attendance.isLate := isLate; Attendance.lateMinutes := lateMinutes |}.

Definition lookups : list Event :=
  [ UserLookup "S001"; CourseLookup "ICT651";
    AttendanceLookup ("S001", "ICT651", "2024-01-02") ].

(** The store after Alice's image submission at 09:10 was accepted. *)
Definition marked : Store :=
  after (serve image (at_ (nine + minutes 10) 90%float) store0).

End Sample.

(* ================================================================== *)
(** ** More JavaScript built-ins, on ASCII strings *)

Module JsString.

(** [String.prototype.split] with a one-character separator. *)
Fixpoint split (sep : ascii) (s : string) : list string :=
  match s with
  | EmptyString => [EmptyString]
  | String c rest =>
      if Ascii.eqb c sep then EmptyString :: split sep rest
      else
        match split sep rest with
        | [] => [String c EmptyString]
        | piece :: pieces => String c piece :: pieces
        end
  end.

(** The characters matched by [\d]. *)
Definition isDigit (c : ascii) : bool :=
  let n := nat_of_ascii c in (Nat.leb 48 n && Nat.leb n 57)%bool.

(** White space and line terminators (their ASCII part), which [trim] and
    [parseInt] strip. *)
Definition isWhite (c : ascii) : bool :=
  let n := nat_of_ascii c in ((Nat.leb 9 n && Nat.leb n 13) || Nat.eqb n 32)%bool.

Fixpoint trimStart (s : string) : string :=
  match s with
  | EmptyString => EmptyString
  | String c rest => if isWhite c then trimStart rest else s
  end.

(** The empty string if [s] is all white space, else [s] up to its last
    character that is not white space. *)
Fixpoint trimEnd (s : string) : string :=
  match s with
  | EmptyString => EmptyString
  | String c rest =>
      match trimEnd rest with
      | EmptyString => if isWhite c then EmptyString else String c EmptyString
      | kept => String c kept
      end
  end.

(** [String.prototype.trim] *)
Definition trim (s : string) : string := trimEnd (trimStart s).

(** The longest prefix of decimal digits. *)
Fixpoint digitPrefix (s : string) : string :=
  match s with
  | EmptyString => EmptyString
  | String c rest => if isDigit c then String c (digitPrefix rest) else EmptyString
  end.

(** [parseInt(s, 10)]; [None] is NaN.  The result is the integer read,
    which is the JavaScript result as long as it is at most 2^53 - 1 in
    absolute value. *)
Definition parseInt (s : string) : option Z :=
  let t := trimStart s in
  let '(negative, body) :=
    match t with
    | String "-" rest => (true, rest)
    | String "+" rest => (false, rest)
    | _ => (false, t)
    end in
  match NilEmpty.uint_of_string (digitPrefix body) with
  | Some Decimal.Nil | None => None
  | Some digits =>
      Some (if negative then - Z.of_uint digits else Z.of_uint digits)
  end.

(** [s.padStart(2, '0')] *)
Definition padStart2 (s : string) : string :=
  match String.length s with
  | O => "00"
  | S O => "0" ++ s
  | _ => s
  end.

End JsString.

(* ================================================================== *)
(** ** Authentication middleware and the guarded attendance route *)

Module Auth.

(** What a verified token carries: the payloads that the two login routes
    sign ([role], [studentId] for a student, [uniqueId] and [adminLevel]
    for an admin). *)
Inductive TokenPayload : Type :=
| AdminToken (uniqueId adminLevel : string)
| StudentToken (studentId : string).

(** [req.user.role] *)
Definition role (user : TokenPayload) : string :=
  match user with
  | AdminToken _ _ => "admin"
  | StudentToken _ => "student"
  end.

(** [authHeader && authHeader.split(' ')[1]] *)
Definition tokenOf (authHeader : option string) : option string :=
  match authHeader with
  | None => None
  | Some h => if String.eqb h "" then Some "" else nth_error (JsString.split " " h) 1
  end.

(** [authenticateToken]; [verify] stands for [jwt.verify] with the server's
    secret at the time of the request: [None] when it reports an error.
    The result is the response sent, or the [req.user] handed to [next]. *)
Definition authenticateToken (verify : string -> option TokenPayload)
    (authHeader : option string) : Response + TokenPayload :=
  let token := tokenOf authHeader in
  if missing token then inl (Failure 401 "Access token required")
  else
    match verify (text token) with
    | None => inl (Failure 403 "Invalid or expired token")
    | Some user => inr user
    end.

Definition requireAdmin (user : TokenPayload) : Response + TokenPayload :=
  if negb (String.eqb (role user) "admin")
  then inl (Failure 403 "Admin access required")
  else inr user.

Definition requireStudent (user : TokenPayload) : Response + TokenPayload :=
  if negb (String.eqb (role user) "student")
  then inl (Failure 403 "Student access required")
  else inr user.

(** [req.user.studentId] *)
Definition studentId (user : TokenPayload) : string :=
  match user with
  | StudentToken sid => sid
  | AdminToken _ _ => ""
  end.

End Auth.

(** The body of an attendance submission, before the middleware has put
    [req.user] beside it. *)
Inductive Submission : Type :=
| EmbeddingBody (courseCode : option string) (faceData : option (list float))
| ImageBody (courseCode : option string) (imageBase64 : option string).

Definition withUser (studentId : string) (b : Submission) : Request :=
  match b with
  | EmbeddingBody courseCode faceData =>
      Embedding {| e_studentId := studentId; e_courseCode := courseCode;
                   e_faceData := faceData |}
  | ImageBody courseCode imageBase64 =>
      Image {| i_studentId := studentId; i_courseCode := courseCode;
               i_imageBase64 := imageBase64 |}
  end.

(** [app.post(path, authenticateToken, requireStudent, handler)] for the
    two attendance paths. *)
Definition attendanceRoute (verify : string -> option Auth.TokenPayload)
    (authHeader : option string) (body : Submission) (env : Env)
  : Store -> Result :=
  fun s =>
    match Auth.authenticateToken verify authHeader with
    | inl r => {| response := r; after := s; events := [] |}
    | inr user =>
        match Auth.requireStudent user with
        | inl r => {| response := r; after := s; events := [] |}
        | inr user => serve (withUser (Auth.studentId user) body) env s
        end
    end.

(* ================================================================== *)
(** ** Face registration and face status routes *)

(** A JSON response of the routes that do not return an attendance
    record: [res.status(code).json({ success: false, error })], or
    [res.status(code).json({ success: true, message?, data? })], where
    [res.json] alone is status 200. *)
Inductive Answer (A : Type) : Type :=
| Refused (status : Z) (error : string)
| Replied (status : Z) (message : option string) (data : A).

Arguments Refused {A} status error.
Arguments Replied {A} status message data.

(** An element of a JSON array: a number, or anything else. *)
Inductive Json : Type :=
| JNumber (x : float)
| JOther.

(** [typeof v === 'number' && Number.isFinite(v)] *)
Definition isFiniteNumber (v : Json) : bool :=
  match v with
  | JNumber x => negb (PrimFloat.is_nan x || PrimFloat.is_infinity x)
  | JOther => false
  end.

(** The numbers of an array of which every element is a number. *)
Definition numbersOf (vs : list Json) : list float :=
  flat_map (fun v => match v with JNumber x => [x] | JOther => [] end) vs.

(** [student.save()] after the handler assigned a field of the document
    that [User.findOne] returned: the first document matching the query
    is replaced by its changed version. *)
Fixpoint saveStudent (sid : string) (change : User.doc -> User.doc)
    (us : list User.doc) : list User.doc :=
  match us with
  | [] => []
  | u :: rest =>
      if (String.eqb (User.studentId u) sid && User.isStudent u && User.isActive u)%bool
      then change u :: rest
      else u :: saveStudent sid change rest
  end.

Definition withUsers (us : list User.doc) (s : Store) : Store :=
  {| users := us; courses := courses s;
     attendance := attendance s; notifications := notifications s |}.

Definition setFaceEncodings (xs : list float) (u : User.doc) : User.doc :=
  {| User.role := User.role u; User.studentId := User.studentId u;
     User.studentName := User.studentName u;
     User.enrolledCourses := User.enrolledCourses u;
     User.faceEncodings := xs; User.faceToken := User.faceToken u;
     User.isActive := User.isActive u |}.

Definition setFaceToken (t : option string) (u : User.doc) : User.doc :=
  {| User.role := User.role u; User.studentId := User.studentId u;
     User.studentName := User.studentName u;
     User.enrolledCourses := User.enrolledCourses u;
     User.faceEncodings := User.faceEncodings u; User.faceToken := t;
     User.isActive := User.isActive u |}.

(** [app.post('/api/student/face/register', ...)], after the middleware:
    [studentId] is [req.user.studentId], [encodings] is
    [req.body.encodings] when it is an array. *)
Definition registerFace (studentId : string) (encodings : option (list Json))
    (s : Store) : Answer unit * Store :=
  match encodings with
  | None | Some [] =>
      (Refused 400 "Valid face encodings array is required", s)
  | Some vs =>
      let areNumbers := forallb isFiniteNumber vs in
      if (negb areNumbers || Nat.ltb (List.length vs) 64
          || Nat.ltb 1024 (List.length vs))%bool
      then (Refused 400
              "Face encodings must be a numeric array of length between 64 and 1024", s)
      else
        match User.findOne (users s) studentId with
        | None => (Refused 404 "Student not found", s)
        | Some _ =>
            (Replied 200 (Some "Face encodings registered successfully") tt,
             withUsers (saveStudent studentId (setFaceEncodings (numbersOf vs))
                          (users s)) s)
        end
  end.

(** The environment variables of the Face++ client. *)
Record FaceppConfig : Type := {
  FACEPP_API_KEY : string;
  FACEPP_API_SECRET : string
}.

(** What the HTTP call of [faceppDetectGetToken] can give back; a face
    without [face_token] is [None]. *)
Inductive detectReply : Type :=
| DetectRequestFailed
| DetectNoData
| DetectFacesNotArray
| DetectFaces (face_tokens : list (option string)).

(** [faceppDetectGetToken]: [None] when it throws, else
    [resp.data.faces[0].face_token]. *)
Definition faceppDetectGetToken (cfg : FaceppConfig) (reply : detectReply)
  : option (option string) :=
  if (String.eqb (FACEPP_API_KEY cfg) "" || String.eqb (FACEPP_API_SECRET cfg) "")%bool
  then None
  else
    match reply with
    | DetectFaces (token :: _) => Some token
    | _ => None
    end.

(** [app.post('/api/student/face/register-image', ...)] *)
Definition registerFaceImage (cfg : FaceppConfig) (reply : detectReply)
    (studentId : string) (imageBase64 : option string) (s : Store)
  : Answer unit * Store :=
  if missing imageBase64 then (Refused 400 "imageBase64 is required", s)
  else
    match faceppDetectGetToken cfg reply with
    | None => (Refused 400 "Face not detected. Please try again.", s)
    | Some faceToken =>
        match User.findOne (users s) studentId with
        | None => (Refused 404 "Student not found", s)
        | Some _ =>
            (Replied 200 (Some "Face registered successfully") tt,
             withUsers (saveStudent studentId (setFaceToken faceToken) (users s)) s)
        end
    end.

(** [app.get('/api/student/face/status', ...)]: the data is
    [isRegistered]. *)
Definition faceStatus (studentId : string) (s : Store) : Answer bool :=
  match User.findOne (users s) studentId with
  | None => Refused 404 "Student not found"
  | Some student => Replied 200 None (negb (missing (User.faceToken student)))
  end.

(** A stored embedding as the registration route writes it. *)
Definition storedEncodingsOk (xs : list float) : Prop :=
  xs = []
  \/ (64 <= List.length xs <= 1024)%nat
     /\ forallb (fun x => negb (PrimFloat.is_nan x || PrimFloat.is_infinity x)) xs = true.

(* ================================================================== *)
(** ** Student dashboard statistics *)

Module Dashboard.

(** [Attendance.find({ studentId })] *)
Definition find (l : Attendance.ledger) (sid : string) : list Attendance.doc :=
  filter (fun d => String.eqb (Attendance.studentId d) sid) l.

Definition status_eqb (a b : Attendance.Status) : bool :=
  match a, b with
  | Attendance.present, Attendance.present
  | Attendance.absent, Attendance.absent
  | Attendance.late, Attendance.late
  | Attendance.excused, Attendance.excused => true
  | _, _ => false
  end.

(** [records.filter(record => record.status === st).length] *)
Definition countStatus (st : Attendance.Status) (records : list Attendance.doc) : Z :=
  Z.of_nat (List.length
              (filter (fun d => status_eqb (Attendance.status d) st) records)).

(** The counters of the [statistics] object ([overallPercentage], a
    formatted number, is not modelled). *)
Record Statistics : Type := {
  totalSessions : Z;
  presentSessions : Z;
  lateSessions : Z;
  absentSessions : Z
}.

Definition statistics (attendanceRecords : list Attendance.doc) : Statistics :=
  let totalSessions := Z.of_nat (List.length attendanceRecords) in
  let presentSessions := countStatus Attendance.present attendanceRecords in
  let lateSessions := countStatus Attendance.late attendanceRecords in
  {| totalSessions := totalSessions;
     presentSessions := presentSessions;
     lateSessions := lateSessions;
     absentSessions := totalSessions - presentSessions - lateSessions |}.

(** One entry of [courseStats] ([percentage] is not modelled).  The entry
    starts with the four counters at 0; a record whose status is
    'excused' increments a property that does not exist, which leaves NaN
    there: [excusedIsNaN]. *)
Record CourseStat : Type := {
  total : Z;
  present : Z;
  late : Z;
  absent : Z;
  excusedIsNaN : bool
}.

Definition emptyStat : CourseStat :=
  {| total := 0; present := 0; late := 0; absent := 0; excusedIsNaN := false |}.

(** [stats.total++; stats[record.status]++] *)
Definition count (st : Attendance.Status) (c : CourseStat) : CourseStat :=
  match st with
  | Attendance.present =>
      {| total := total c + 1; present := present c + 1; late := late c;
         absent := absent c; excusedIsNaN := excusedIsNaN c |}
  | Attendance.late =>
      {| total := total c + 1; present := present c; late := late c + 1;
         absent := absent c; excusedIsNaN := excusedIsNaN c |}
  | Attendance.absent =>
      {| total := total c + 1; present := present c; late := late c;
         absent := absent c + 1; excusedIsNaN := excusedIsNaN c |}
  | Attendance.excused =>
      {| total := total c + 1; present := present c; late := late c;
         absent := absent c; excusedIsNaN := true |}
  end.

(** The own properties of the [courseStats] object, read through
    [lookup]. *)
Definition CourseStats : Type := list (string * CourseStat).

Fixpoint lookup (code : string) (stats : CourseStats) : option CourseStat :=
  match stats with
  | [] => None
  | (c, st) :: rest => if String.eqb c code then Some st else lookup code rest
  end.

(** [courseStats] is created by [{}], so it inherits the properties of
    [Object.prototype]: for these names [courseStats[name]] is a function
    (for [__proto__] the prototype itself) before any entry exists. *)
Definition inheritedNames : list string :=
  [ "constructor"; "__proto__"; "hasOwnProperty"; "isPrototypeOf";
    "propertyIsEnumerable"; "toLocaleString"; "toString"; "valueOf";
    "__defineGetter__"; "__defineSetter__"; "__lookupGetter__";
    "__lookupSetter__" ].

Definition inherited (name : string) : bool := Js.includes inheritedNames name.

(** The step on a code that is not inherited: create the entry if it is
    missing, then count the record in it. *)
Fixpoint countOwn (code : string) (st : Attendance.Status) (stats : CourseStats)
  : CourseStats :=
  match stats with
  | [] => [(code, count st emptyStat)]
  | (c, entry) :: rest =>
      if String.eqb c code then (c, count st entry) :: rest
      else (c, entry) :: countOwn code st rest
  end.

(** One step of the [forEach].  For an inherited name
    [!courseStats[record.courseCode]] is false, no entry is created, and
    the two increments write to the inherited value (leaving NaN in its
    [total] and in its property named by the status, which are falsy like
    the missing properties they replace): [courseStats] gets no property. *)
Definition countRecord (code : string) (st : Attendance.Status) (stats : CourseStats)
  : CourseStats :=
  if inherited code then stats else countOwn code st stats.

Definition courseStats (attendanceRecords : list Attendance.doc) : CourseStats :=
  fold_left
    (fun stats record =>
       countRecord (Attendance.courseCode record) (Attendance.status record) stats)
    attendanceRecords [].

(** The records of one course. *)
Definition inCourse (code : string) (records : list Attendance.doc)
  : list Attendance.doc :=
  filter (fun d => String.eqb (Attendance.courseCode d) code) records.

End Dashboard.

(** The statistics part of [app.get('/api/student/dashboard', ...)]. *)
Definition studentDashboard (studentId : string) (s : Store)
  : Answer (Dashboard.Statistics * Dashboard.CourseStats) :=
  match User.findOne (users s) studentId with
  | None => Refused 404 "Student not found"
  | Some _ =>
      let attendanceRecords := Dashboard.find (attendance s) studentId in
      Replied 200 None (Dashboard.statistics attendanceRecords,
                    Dashboard.courseStats attendanceRecords)
  end.

(* ================================================================== *)
(** ** Client-side helpers (the React Native part of the file) *)

Module Client.

(** [isValidAcademicYear]: [text] is the form field, a string. *)
Definition isValidAcademicYear (text : string) : bool :=
  if String.eqb text "" then true
  else
    match text with
    | String a (String b (String c (String d (String sep
        (String e (String f (String g (String h EmptyString)))))))) =>
        if (forallb JsString.isDigit [a; b; c; d; e; f; g; h] && Ascii.eqb sep "-")%bool
        then
          match JsString.parseInt (string_of_list_ascii [a; b; c; d]),
                JsString.parseInt (string_of_list_ascii [e; f; g; h]) with
          | Some start, Some end_ => end_ =? start + 1
          | _, _ => false
          end
        else false
    | _ => false
    end.

(** [pad2] and [formatDate], on integers. *)
Definition pad2 (n : Z) : string := JsString.padStart2 (showInt n).

Definition formatDate (y m d : Z) : string :=
  showInt y ++ "-" ++ pad2 m ++ "-" ++ pad2 d.

(** [parseDateString]; [today] is the year, month and day that the
    [catch] branch reads from the clock. *)
Definition parseDateString (today : Z * Z * Z) (value : string) : Z * Z * Z :=
  match map JsString.parseInt (JsString.split "-" value) with
  | Some y :: Some m :: Some d :: _ =>
      if ((y =? 0) || (m =? 0) || (d =? 0))%bool then today else (y, m, d)
  | _ => today
  end.

(** The new [enrolledCourses] that [toggleCourseSelection] sets. *)
Definition toggleCourseSelection (enrolledCourses : list string) (courseCode : string)
  : list string :=
  if Js.includes enrolledCourses courseCode
  then filter (fun code => negb (String.eqb code courseCode)) enrolledCourses
  else (enrolledCourses ++ [courseCode])%list.

(** The text [isValidAcademicYear] is written for: two consecutive
    four-digit years. *)
Definition academicYear (start : Z) : string :=
  Js.fixedDigits 4 start ++ "-" ++ Js.fixedDigits 4 (start + 1).

End Client.

(* ================================================================== *)
(** ** Course creation *)

Definition withCourses (cs : list Course.doc) (s : Store) : Store :=
  {| users := users s; courses := cs;
     attendance := attendance s; notifications := notifications s |}.

(** [Course.findOne({ courseCode })], whatever [isActive] is. *)
Definition findCourseByCode (cs : list Course.doc) (code : string) : option Course.doc :=
  find (fun c => String.eqb (Course.courseCode c) code) cs.

(** [app.post('/api/admin/courses', ...)], after the middleware, for a
    body whose fields are absent or of the type the form sends (strings,
    and numbers for [credits] and [maxCapacity]) and whose [courseCode]
    and [courseName] are ASCII strings, where [Js.toUpperCase] and
    [JsString.trim] are the JavaScript functions.  Then only [courseCode]
    and [courseName] decide anything; the document is created active.  A
    name that is blank after [trim] fails the schema's [required] and the
    save throws.  (The duplicate-key case of the [catch] block needs a
    concurrent creation and is not modelled.) *)
Definition createCourse (courseCode courseName : option string) (s : Store)
  : Answer Course.doc * Store :=
  if (missing courseCode || missing courseName)%bool
  then (Refused 400 "Course code and name are required", s)
  else
    let code := Js.toUpperCase (text courseCode) in
    match findCourseByCode (courses s) code with
    | Some _ => (Refused 400 "Course with this code already exists", s)
    | None =>
        if String.eqb (JsString.trim (text courseName)) ""
        then (Refused 500 "Failed to create course", s)
        else
          let course := {| Course.courseCode := code; Course.isActive := true |} in
          (Replied 201 (Some "Course created successfully") course,
           withCourses (courses s ++ [course])%list s)
    end.

(** The unique index on [courseCode], and what the [uppercase] option of
    the schema means for the ASCII letters: no code has one of a-z. *)
Definition courseCodesOk (cs : list Course.doc) : Prop :=
  NoDup (map Course.courseCode cs)
  /\ Forall (fun c => Js.toUpperCase (Course.courseCode c) = Course.courseCode c) cs.

(* ================================================================== *)
(** ** More of the sample deployment *)

Module Demo.

(** The tokens the server has issued to Alice and to the administrator. *)
Definition verify (token : string) : option Auth.TokenPayload :=
  if String.eqb token "alice-token" then Some (Auth.StudentToken "S001")
  else if String.eqb token "admin-token" then Some (Auth.AdminToken "admin001" "super_admin")
  else None.

Definition body : Submission := ImageBody (Some "ict651") (Some "AAAA").

Definition morning : Env := Sample.at_ (Sample.nine + Sample.minutes 10) 90%float.

(** The provider is down. *)
Definition offline : Env :=
  {| tzOffset := Sample.zone; clockToday := Sample.nine; clockCurrent := Sample.nine;
     clockStart := Sample.nine; provider := Oracle.RequestFailed;
     lateCommits := 0; sinkFails := false |}.

Definition encodings : list Json := map JNumber Sample.three.

Definition faceppKeys : FaceppConfig :=
  {| FACEPP_API_KEY := "key"; FACEPP_API_SECRET := "secret" |}.

Definition noKeys : FaceppConfig :=
  {| FACEPP_API_KEY := ""; FACEPP_API_SECRET := "" |}.

Definition oneFace : detectReply := DetectFaces [Some "face-token-2"].

(** A server at UTC-8: all clock reads give [t], the provider answers
    confidence [c]. *)
Definition west (t : Js.Date) (c : float) : Env :=
  {| tzOffset := - (8 * Js.msPerHour); clockToday := t; clockCurrent := t;
     clockStart := t; provider := Oracle.Confidence c;
     lateCommits := 0; sinkFails := false |}.

End Demo.

(* ================================================================== *)
(** ** Predicates used in the statements *)

(** A record as the two handlers write it. *)
Definition recordOk (d : Attendance.doc) : Prop :=
  (Attendance.status d = Attendance.present
   /\ Attendance.isLate d = false /\ Attendance.lateMinutes d = 0
   \/ Attendance.status d = Attendance.late
   /\ Attendance.isLate d = true /\ 16 <= Attendance.lateMinutes d)
  /\ Attendance.validate d = true
  /\ PrimFloat.ltb (Attendance.confidenceScore d) SIMILARITY_THRESHOLD = false
  /\ Js.toUpperCase (Attendance.courseCode d) = Attendance.courseCode d.

(** A string without a space. *)
Definition spaceFree (s : string) : Prop :=
  forall n, String.get n s <> Some " "%char.

(** A change of a user document that keeps the fields the student query
    looks at. *)
Definition keepsIdentity (change : User.doc -> User.doc) : Prop :=
  forall u, User.studentId (change u) = User.studentId u
            /\ User.role (change u) = User.role u
            /\ User.isActive (change u) = User.isActive u.

(** [{ studentId, role: 'student', isActive: true }] *)
Definition matchesStudent (sid : string) (u : User.doc) : bool :=
  (String.eqb (User.studentId u) sid && User.isStudent u && User.isActive u)%bool.

(** The two "register first" rejections of the attendance handlers. *)
Definition noEncodings : Response :=
  Failure 400 "No registered face encodings found. Please register your face first.".

Definition noFaceToken : Response :=
  Failure 400 "No registered face found. Please register your face first.".

(** Every stored embedding is empty or as the registration route
    validated it. *)
Definition encodingsInvariant (s : Store) : Prop :=
  Forall (fun u => storedEncodingsOk (User.faceEncodings u)) (users s).

(** The [courseStats] entry of a course, counted directly from its
    records. *)
Definition statOf (records : list Attendance.doc) : Dashboard.CourseStat :=
  {| Dashboard.total := Z.of_nat (List.length records);
     Dashboard.present := Dashboard.countStatus Attendance.present records;
     Dashboard.late := Dashboard.countStatus Attendance.late records;
     Dashboard.absent := Dashboard.countStatus Attendance.absent records;
     Dashboard.excusedIsNaN :=
       existsb (fun d => Dashboard.status_eqb (Attendance.status d) Attendance.excused)
         records |}.

Definition plusRecords (c : Dashboard.CourseStat) (records : list Attendance.doc)
  : Dashboard.CourseStat :=
  {| Dashboard.total := Dashboard.total c + Z.of_nat (List.length records);
     Dashboard.present :=
       Dashboard.present c + Dashboard.countStatus Attendance.present records;
     Dashboard.late := Dashboard.late c + Dashboard.countStatus Attendance.late records;
     Dashboard.absent :=
       Dashboard.absent c + Dashboard.countStatus Attendance.absent records;
     Dashboard.excusedIsNaN :=
       Dashboard.excusedIsNaN c
       || existsb (fun d => Dashboard.status_eqb (Attendance.status d) Attendance.excused)
            records |}.

(** The ten digits, and all strings of four of them. *)
Definition digitChars : list ascii := map (fun n => ascii_of_nat (48 + n)) (seq 0 10).

Definition fourDigits : list (ascii * (ascii * (ascii * ascii))) :=
  list_prod digitChars (list_prod digitChars (list_prod digitChars digitChars)).

(** [parseInt] of four digits is a number of 0..9999 that prints back to
    them. *)
Definition readsBack (q : ascii * (ascii * (ascii * ascii))) : bool :=
  let '(a, (b, (c, d))) := q in
  match JsString.parseInt (string_of_list_ascii [a; b; c; d]) with
  | Some y =>
      ((0 <=? y) && (y <=? 9999)
       && String.eqb (Js.fixedDigits 4 y) (string_of_list_ascii [a; b; c; d]))%bool
  | None => false
  end.

Definition digitsOnly (s : string) : Prop :=
  forallb JsString.isDigit (list_ascii_of_string s) = true.

(* ================================================================== *)
(** * Properties *)

(** ** The ledger and its unique index *)

Section Ledger.

Import Attendance.

Lemma key_eqb_eq (k1 k2 : key) : key_eqb k1 k2 = true <-> k1 = k2.
Proof.
  destruct k1 as [[s1 c1] d1], k2 as [[s2 c2] d2]; unfold key_eqb.
  rewrite !andb_true_iff, !String.eqb_eq.
  split; [intros [[-> ->] ->]; reflexivity | intros H; inversion H; auto].
Qed.

Lemma key_eqb_refl (k : key) : key_eqb k k = true.
Proof. apply key_eqb_eq; reflexivity. Qed.

Lemma countKey_cons (d : doc) (l : ledger) (k : key) :
  countKey k (d :: l)
  = ((if key_eqb (keyOf d) k then 1 else 0) + countKey k l)%nat.
Proof. unfold countKey; cbn [filter]; destruct (key_eqb (keyOf d) k); reflexivity. Qed.

Lemma findOne_None_count (l : ledger) (k : key) :
  findOne l k = None <-> countKey k l = 0%nat.
Proof.
  induction l as [|d l IH]; [split; reflexivity|].
  rewrite countKey_cons; unfold findOne in *; cbn [find].
  destruct (key_eqb (keyOf d) k); cbn [Nat.add].
  - split; discriminate.
  - exact IH.
Qed.

Lemma insertOne_inl (d : doc) (l l' : ledger) :
  insertOne d l = inl l' -> l' = d :: l /\ countKey (keyOf d) l = 0%nat.
Proof.
  unfold insertOne; destruct (findOne l (keyOf d)) eqn:E; [discriminate|].
  intros H; inversion H; split; [reflexivity | now apply findOne_None_count].
Qed.

Lemma insertOne_inr (d : doc) (l : ledger) (e : writeError) :
  insertOne d l = inr e ->
  e = DuplicateKey /\ (1 <= countKey (keyOf d) l)%nat.
Proof.
  unfold insertOne; destruct (findOne l (keyOf d)) eqn:E; [|discriminate].
  intros H; inversion H; split; [reflexivity|].
  destruct (countKey (keyOf d) l) eqn:C; [|lia].
  apply findOne_None_count in C; congruence.
Qed.

Lemma insertOne_fresh (d : doc) (l : ledger) :
  countKey (keyOf d) l = 0%nat -> insertOne d l = inl (d :: l).
Proof.
  intros C; unfold insertOne; apply findOne_None_count in C; rewrite C; reflexivity.
Qed.

Lemma insertOne_taken (d : doc) (l : ledger) :
  (1 <= countKey (keyOf d) l)%nat -> insertOne d l = inr DuplicateKey.
Proof.
  intros C; unfold insertOne; destruct (findOne l (keyOf d)) eqn:E; [reflexivity|].
  apply findOne_None_count in E; lia.
Qed.

Lemma insertOne_unique (d : doc) (l l' : ledger) :
  uniquePerKey l -> insertOne d l = inl l' -> uniquePerKey l'.
Proof.
  intros U H k; apply insertOne_inl in H as [-> C].
  rewrite countKey_cons; destruct (key_eqb (keyOf d) k) eqn:E.
  - apply key_eqb_eq in E; subst k; lia.
  - specialize (U k); lia.
Qed.

Lemma save_unique (d : doc) (l l' : ledger) :
  uniquePerKey l -> save d l = inl l' -> uniquePerKey l'.
Proof.
  unfold save; destruct (validate d); [apply insertOne_unique | discriminate].
Qed.

Lemma save_inl (d : doc) (l l' : ledger) :
  save d l = inl l' ->
  l' = d :: l /\ findOne l (keyOf d) = None /\ validate d = true.
Proof.
  unfold save; destruct (validate d); [|discriminate].
  intros H; apply insertOne_inl in H as [-> C].
  repeat split; now apply findOne_None_count.
Qed.

Lemma countKey_deleteMany (sid : string) (l : ledger) (k : key) :
  (countKey k (deleteMany sid l) <= countKey k l)%nat.
Proof.
  induction l as [|d l IH]; [apply Nat.le_refl|].
  unfold deleteMany in *; cbn [filter].
  destruct (negb (String.eqb (studentId d) sid)).
  - rewrite !countKey_cons; lia.
  - rewrite countKey_cons; lia.
Qed.

Lemma deleteMany_unique (sid : string) (l : ledger) :
  uniquePerKey l -> uniquePerKey (deleteMany sid l).
Proof.
  intros U k; specialize (U k); pose proof (countKey_deleteMany sid l k); lia.
Qed.

Lemma uniquePerKey_nil : uniquePerKey [].
Proof. intros k; unfold countKey; cbn [filter List.length]; lia. Qed.

(** Once a key is stored, every later insert under it is refused. *)
Lemma commitAll_taken (k : key) (ds : list doc) :
  Forall (fun d => keyOf d = k) ds ->
  forall l, (1 <= countKey k l)%nat ->
  commitAll ds l = (repeat (Some DuplicateKey) (List.length ds), l).
Proof.
  induction 1 as [|d ds Hd _ IH]; intros l C; [reflexivity|].
  cbn [commitAll List.length repeat]; subst k.
  rewrite (insertOne_taken d l C), (IH l C); reflexivity.
Qed.

(** Of the inserts under a key that is not stored yet, the first one the
    store takes is accepted and all the others are refused. *)
Lemma commitAll_fresh (k : key) (d : doc) (ds : list doc) (l : ledger) :
  Forall (fun x => keyOf x = k) (d :: ds) ->
  countKey k l = 0%nat ->
  commitAll (d :: ds) l
  = (None :: repeat (Some DuplicateKey) (List.length ds), d :: l).
Proof.
  intros F C; inversion F as [|? ? Hd Hds]; subst.
  cbn [commitAll]; rewrite (insertOne_fresh d l C).
  rewrite (commitAll_taken (keyOf d) ds Hds (d :: l)); [reflexivity|].
  rewrite countKey_cons, key_eqb_refl; lia.
Qed.

Lemma succeeded_refused (n : nat) :
  succeeded (repeat (Some DuplicateKey) n) = 0%nat.
Proof. induction n; [reflexivity | exact IHn]. Qed.

End Ledger.

(* ================================================================== *)
(** ** Running a handler symbolically *)

Ltac unfold_handler :=
  unfold serve, markAttendance, markAttendanceImage, handle,
    markAttendanceBody, markAttendanceImageBody, resolveStudent,
    requireEnrolledCourse, requireNotMarked, commitAttendance,
    createNotification, notificationSave, attendanceSave, attendanceFindOne,
    courseFindOne, userFindOne, callCosine, callFacepp, tryCatch, when,
    bind, ret, respond, throw, emit, getStore, putStore.

Ltac reduce_handler :=
  cbn -[Attendance.save Attendance.findOne User.findOne Course.findOne
        Js.toISODate Js.toUpperCase Js.includes String.append showInt
        lateness classStartTime Oracle.computeCosineSimilarity
        Oracle.faceppCompare Notification.validate PrimFloat.ltb
        SIMILARITY_THRESHOLD skipn].

Ltac split_step :=
  match goal with
  | |- context [match ?x with _ => _ end] =>
      match x with
      | context [match _ with _ => _ end] => fail 1
      | _ => destruct x eqn:?
      end
  end.

(** Leaves one goal per path through the handler, with the result of
    [serve r env s] replaced by what that path gives. *)
Ltac run_endpoint r env s :=
  let res := fresh "res" in
  let Hres := fresh "Hres" in
  remember (serve r env s) as res eqn:Hres;
  revert Hres;
  unfold_handler; reduce_handler; repeat (split_step; reduce_handler);
  intros Hres; subst res; cbn [response after events].

(** The same for a submission on either endpoint. *)
Ltac run_handler r env s :=
  let res := fresh "res" in
  let Hres := fresh "Hres" in
  remember (serve r env s) as res eqn:Hres;
  revert Hres; destruct r;
  unfold_handler; reduce_handler; repeat (split_step; reduce_handler);
  intros Hres; subst res; cbn [response after events].

(** Closes a goal from [H : In x l] when [l] is an explicit list none of
    whose elements can be [x]. *)
Ltac refute_in H :=
  cbn [In] in H; repeat (destruct H as [H|H]; [discriminate H|]); destruct H.

(** ** Shapes of event lists *)

Lemma oracleLast_split (es : list Event) :
  oracleLast es = true ->
  forall pre sim post, es = (pre ++ OracleCall sim :: post)%list ->
  Forall isLookup pre /\ Forall isWrite post.
Proof.
  induction es as [|e es IH]; intros H pre sim post E.
  - destruct pre; discriminate.
  - destruct pre as [|p pre]; cbn [app] in E; inversion E; subst.
    + split; [constructor|].
      cbn [oracleLast] in H; rewrite forallb_forall in H.
      apply Forall_forall; intros x Hx; specialize (H x Hx).
      destruct x; try discriminate; exact I.
    + assert (isLookupb p = true /\ oracleLast (pre ++ OracleCall sim :: post)%list = true) as [Hp Hr].
      { destruct p; cbn [oracleLast] in H; try (apply andb_true_iff in H; exact H).
        exfalso. cbn [isLookupb andb] in H.
        clear -H. induction pre as [|q pre IHp]; cbn [app forallb] in H.
        - cbn [isWriteb andb] in H; discriminate.
        - apply andb_true_iff in H as [_ H]; auto. }
      destruct (IH Hr pre sim post eq_refl) as [F1 F2]; split; [|exact F2].
      constructor; [destruct p; try discriminate; exact I | exact F1].
Qed.

Lemma notifyAfterCommit_split (es : list Event) :
  forall committed, notifyAfterCommit committed es = true ->
  forall pre n ok post, es = (pre ++ NotificationSave n ok :: post)%list ->
  committed = true \/ exists d, In (AttendanceSave d None) pre.
Proof.
  induction es as [|e es IH]; intros c H pre n ok post E.
  - destruct pre; discriminate.
  - destruct pre as [|p pre]; cbn [app] in E; inversion E; subst.
    + cbn [notifyAfterCommit] in H; apply andb_true_iff in H as [H _]; auto.
    + destruct p as [x|x|x|x|d o|x y]; cbn [notifyAfterCommit] in H.
      1-4: destruct (IH c H pre n ok post eq_refl) as [->|[d Hd]];
        [auto | right; exists d; right; exact Hd].
      * destruct o as [err|].
        -- destruct (IH c H pre n ok post eq_refl) as [->|[d' Hd]];
             [auto | right; exists d'; right; exact Hd].
        -- right; exists d; left; reflexivity.
      * apply andb_true_iff in H as [Hc H].
        destruct (IH c H pre n ok post eq_refl) as [->|[d Hd]];
          [auto | right; exists d; right; exact Hd].
Qed.

(* ================================================================== *)
(** ** The cosine oracle on degenerate inputs *)

Section Cosine.

Import Oracle.
Local Open Scope float_scope.

Lemma cosine_empty_left (b : list float) : computeCosineSimilarity [] b = 0.
Proof. reflexivity. Qed.

Lemma cosine_empty_right (a : list float) : computeCosineSimilarity a [] = 0.
Proof.
  unfold computeCosineSimilarity; cbn [List.length Nat.eqb].
  rewrite orb_true_r; reflexivity.
Qed.

Lemma cosine_length_mismatch (a b : list float) :
  List.length a <> List.length b -> computeCosineSimilarity a b = 0.
Proof.
  intros H; unfold computeCosineSimilarity.
  apply Nat.eqb_neq in H; rewrite H; cbn [negb]; rewrite !orb_true_r; reflexivity.
Qed.

Lemma cosineLoop_nan (a : list float) :
  forall b dot normA normB,
    List.length a = List.length b ->
    (existsb PrimFloat.is_nan a || existsb PrimFloat.is_nan b)%bool = true ->
    cosineLoop a b dot normA normB = ReturnedZero.
Proof.
  induction a as [|va a IH]; intros [|vb b] dot normA normB L H;
    try discriminate; cbn [cosineLoop].
  destruct (PrimFloat.is_nan va || PrimFloat.is_nan vb)%bool eqn:E; [reflexivity|].
  apply orb_false_iff in E as [Ea Eb].
  cbn [existsb] in H; rewrite Ea, Eb in H; cbn [orb] in H.
  apply IH; [now inversion L | exact H].
Qed.

Lemma cosine_nan_element (a b : list float) :
  (existsb PrimFloat.is_nan a || existsb PrimFloat.is_nan b)%bool = true ->
  computeCosineSimilarity a b = 0.
Proof.
  intros H; unfold computeCosineSimilarity.
  destruct (Nat.eqb (List.length a) 0 || Nat.eqb (List.length b) 0
            || negb (Nat.eqb (List.length a) (List.length b)))%bool eqn:G;
    [reflexivity|].
  apply orb_false_iff in G as [_ G]; apply negb_false_iff, Nat.eqb_eq in G.
  rewrite (cosineLoop_nan a b _ _ _ G H); reflexivity.
Qed.

Lemma cosineLoop_zero_left (a : list float) :
  Forall isZero a ->
  forall b dot normB,
    cosineLoop a b dot 0 normB = ReturnedZero
    \/ exists dot' normB', cosineLoop a b dot 0 normB = Acc dot' 0 normB'.
Proof.
  induction 1 as [|va a Hva _ IH]; intros b dot normB; cbn [cosineLoop].
  - right; eauto.
  - destruct b as [|vb b]; [left; reflexivity|].
    destruct (PrimFloat.is_nan va || PrimFloat.is_nan vb)%bool; [left; reflexivity|].
    destruct Hva as [-> | ->]; apply IH.
Qed.

Lemma cosineLoop_zero_right (b : list float) :
  Forall isZero b ->
  forall a dot normA,
    cosineLoop a b dot normA 0 = ReturnedZero
    \/ exists dot' normA', cosineLoop a b dot normA 0 = Acc dot' normA' 0.
Proof.
  induction 1 as [|vb b Hvb _ IH]; intros a dot normA.
  - destruct a; cbn [cosineLoop]; [right; eauto | left; reflexivity].
  - destruct a as [|va a]; cbn [cosineLoop]; [right; eauto|].
    destruct (PrimFloat.is_nan va || PrimFloat.is_nan vb)%bool; [left; reflexivity|].
    destruct Hvb as [-> | ->]; apply IH.
Qed.

Lemma cosine_zero_norm (a b : list float) :
  Forall isZero a \/ Forall isZero b -> computeCosineSimilarity a b = 0.
Proof.
  intros H; unfold computeCosineSimilarity.
  destruct (Nat.eqb (List.length a) 0 || Nat.eqb (List.length b) 0
            || negb (Nat.eqb (List.length a) (List.length b)))%bool;
    [reflexivity|].
  destruct H as [H|H].
  - destruct (cosineLoop_zero_left a H b 0 0) as [-> | [dot' [normB' ->]]];
      reflexivity.
  - destruct (cosineLoop_zero_right b H a 0 0) as [-> | [dot' [normA' ->]]];
      [reflexivity|].
    change (PrimFloat.eqb 0 0) with true; rewrite orb_true_r; reflexivity.
Qed.

End Cosine.

(* ================================================================== *)
(** ** Arrival classification *)

Lemma whole_minutes_late (x : Z) :
  (15 <? x / Js.msPerMinute) = negb (x <? 16 * Js.msPerMinute).
Proof.
  unfold Js.msPerMinute.
  destruct (Z.ltb_spec x (16 * (1000 * 60))) as [L|L]; cbn [negb].
  - apply Z.ltb_ge.
    assert (x / (1000 * 60) < 16) by (apply Z.div_lt_upper_bound; lia). lia.
  - apply Z.ltb_lt.
    assert (16 <= x / (1000 * 60)) by (apply Z.div_le_lower_bound; lia). lia.
Qed.

Lemma lateness_cases (now T : Js.Date) :
  lateness now T
  = if now - T <? 16 * Js.msPerMinute
    then (Attendance.present, false, 0)
    else (Attendance.late, true, (now - T) / Js.msPerMinute).
Proof.
  unfold lateness; rewrite whole_minutes_late.
  destruct (Z.ltb_spec T now) as [L|L];
    destruct (Z.ltb_spec (now - T) (16 * Js.msPerMinute)) as [M|M];
    cbn [negb]; try reflexivity.
  unfold Js.msPerMinute in M; lia.
Qed.

Lemma classStartTime_is_nine_local (env : Env) :
  Js.LocalTime (tzOffset env) (classStartTime env) mod Js.msPerDay
  = 9 * Js.msPerHour.
Proof.
  unfold classStartTime, Js.setHours, Js.LocalTime, Js.Day.
  replace ((clockStart env + tzOffset env) / Js.msPerDay * Js.msPerDay
           + 9 * Js.msPerHour - tzOffset env + tzOffset env)
    with (9 * Js.msPerHour + (clockStart env + tzOffset env) / Js.msPerDay * Js.msPerDay)
    by lia.
  rewrite Z.mod_add by (unfold Js.msPerDay; lia).
  apply Z.mod_small; unfold Js.msPerHour, Js.msPerDay; lia.
Qed.


(* ================================================================== *)
(** ** What a handler run does to the ledger *)

Lemma serve_keeps_unique (r : Request) (env : Env) (s : Store) :
  uniquePerKey (attendance s) ->
  uniquePerKey (attendance (after (serve r env s))).
Proof.
  intros U; run_handler r env s;
    cbn [attendance withAttendance withNotifications];
    try exact U;
    match goal with E : Attendance.save _ _ = inl _ |- _ =>
      exact (save_unique _ _ _ U E) end.
Qed.

Lemma success_is_fresh_insert (r : Request) (env : Env) (s : Store)
    (msg : string) (d : Attendance.doc) :
  response (serve r env s) = Success msg d ->
  Attendance.findOne (attendance s) (Attendance.keyOf d) = None
  /\ attendance (after (serve r env s)) = d :: attendance s
  /\ Attendance.keyOf d = keyOfRequest r env.
Proof.
  run_handler r env s; intros H; try discriminate H;
    inversion H; subst; clear H;
    match goal with E : Attendance.save _ _ = inl _ |- _ =>
      apply save_inl in E as [-> [F _]] end;
    (split; [exact F | split; reflexivity]).
Qed.

Lemma failure_keeps_store (r : Request) (env : Env) (s : Store)
    (st : Z) (e : string) :
  response (serve r env s) = Failure st e -> after (serve r env s) = s.
Proof.
  run_handler r env s; intros H; try discriminate H; reflexivity.
Qed.

(** However the submissions for one key interleave, the ledger gains one
    record under that key per success response. *)
Lemma serveAll_counts (k : Attendance.key) (batch : list (Request * Env)) :
  Forall (fun q => keyOfRequest (fst q) (snd q) = k) batch ->
  forall s,
    Attendance.countKey k (attendance (snd (serveAll batch s)))
    = (accepted (fst (serveAll batch s)) + Attendance.countKey k (attendance s))%nat.
Proof.
  induction 1 as [|[r env] rest Hk _ IH]; intros s; [reflexivity|].
  cbn [serveAll]; cbn [fst snd] in Hk.
  specialize (IH (after (serve r env s))).
  destruct (serveAll rest (after (serve r env s))) as [rs final].
  cbn [fst snd] in *; rewrite IH; unfold accepted; cbn [filter].
  destruct (response (serve r env s)) as [st e|msg d] eqn:E; cbn [isSuccess].
  - rewrite (failure_keeps_store _ _ _ _ _ E); reflexivity.
  - destruct (success_is_fresh_insert _ _ _ _ _ E) as [_ [-> K]].
    rewrite countKey_cons, K, Hk, key_eqb_refl; cbn [List.length]; lia.
Qed.

Lemma reachable_unique (s : Store) :
  reachable s -> uniquePerKey (attendance s).
Proof.
  induction 1 as [us cs ns | s r env _ IH | s sid _ IH | s us cs ns _ IH];
    cbn [attendance withAttendance].
  - apply uniquePerKey_nil.
  - apply serve_keeps_unique, IH.
  - apply deleteMany_unique, IH.
  - exact IH.
Qed.

(** C1: in every state the server can reach the ledger holds at most one
    record per (studentId, courseCode, date); each of the two marking
    handlers keeps it so, and reports success only for an insert under a
    key that was not stored; and of the inserts that concurrent
    submissions send for one key that is not stored yet, exactly one is
    accepted (the first the store takes), every other one being refused
    with the duplicate-key error, so that one record is stored; however
    the submissions for one key interleave, at most one of them is answered
    with success. *)
Theorem one_record_per_key :
  (forall s, reachable s -> uniquePerKey (attendance s))
  /\ (forall r env s,
        uniquePerKey (attendance s) ->
        uniquePerKey (attendance (after (serve r env s))))
  /\ (forall r env s msg d,
        response (serve r env s) = Success msg d ->
        Attendance.findOne (attendance s) (Attendance.keyOf d) = None
        /\ attendance (after (serve r env s)) = d :: attendance s
        /\ Attendance.keyOf d = keyOfRequest r env)
  /\ (forall k batch s,
        reachable s ->
        Forall (fun q => keyOfRequest (fst q) (snd q) = k) batch ->
        (accepted (fst (serveAll batch s))
         + Attendance.countKey k (attendance s) <= 1)%nat
        /\ Attendance.countKey k (attendance (snd (serveAll batch s)))
           = (accepted (fst (serveAll batch s))
              + Attendance.countKey k (attendance s))%nat)
  /\ (forall k d ds l,
        Forall (fun x => Attendance.keyOf x = k) (d :: ds) ->
        Attendance.countKey k l = 0%nat ->
        succeeded (fst (commitAll (d :: ds) l)) = 1%nat
        /\ fst (commitAll (d :: ds) l)
           = None :: repeat (Some Attendance.DuplicateKey) (List.length ds)
        /\ Attendance.countKey k (snd (commitAll (d :: ds) l)) = 1%nat).
Proof.
  split; [exact reachable_unique|].
  split; [exact serve_keeps_unique|].
  split; [exact success_is_fresh_insert|].
  split.
  { intros k batch s R F.
    pose proof (serveAll_counts k batch F s) as E.
    split; [|exact E].
    rewrite <- E; apply reachable_unique; clear E F.
    induction batch as [|[r env] rest IH] in s, R |- *; [exact R|].
    cbn [serveAll].
    specialize (IH (after (serve r env s)) (reach_mark _ r env R)).
    destruct (serveAll rest (after (serve r env s))); exact IH. }
  intros k d ds l F C.
  rewrite (commitAll_fresh k d ds l F C); cbn [fst snd].
  inversion F as [|? ? Hd _]; subst.
  repeat split.
  - unfold succeeded; cbn [filter List.length].
    fold (succeeded (repeat (Some Attendance.DuplicateKey) (List.length ds))).
    rewrite succeeded_refused; reflexivity.
  - rewrite countKey_cons, key_eqb_refl, C; reflexivity.
Qed.

(** C2, as amended: for every accepted submission, with [now] the
    handler's current time and [T] 09:00 of the server's local day, the
    record is present, not late, with lateMinutes 0 as long as fewer than
    16 whole minutes have passed since [T] (this covers now <= T), and
    late, with lateMinutes the whole minutes of now - T, from 16 minutes
    on. *)
Theorem lateness_by_whole_minutes
    (r : Request) (env : Env) (s : Store) (msg : string) (d : Attendance.doc) :
  response (serve r env s) = Success msg d ->
  let now := clockCurrent env in
  let T := classStartTime env in
  Js.LocalTime (tzOffset env) T mod Js.msPerDay = 9 * Js.msPerHour
  /\ In d (attendance (after (serve r env s)))
  /\ (now - T < 16 * Js.msPerMinute ->
        Attendance.status d = Attendance.present
        /\ Attendance.isLate d = false
        /\ Attendance.lateMinutes d = 0)
  /\ (16 * Js.msPerMinute <= now - T ->
        Attendance.status d = Attendance.late
        /\ Attendance.isLate d = true
        /\ Attendance.lateMinutes d = (now - T) / Js.msPerMinute).
Proof.
  intros H now T; split; [apply classStartTime_is_nine_local|].
  revert H; run_handler r env s; intros H; try discriminate H;
    inversion H; subst; clear H;
    match goal with E : Attendance.save _ _ = inl _ |- _ =>
      apply save_inl in E as [-> _] end;
    (split; [cbn [attendance withAttendance withNotifications In]; auto|]);
    match goal with E : lateness _ _ = _ |- _ =>
      rewrite lateness_cases in E; fold now T in E;
      destruct (Z.ltb_spec (now - T) (16 * Js.msPerMinute));
      inversion E; subst;
      cbn [Attendance.status Attendance.isLate Attendance.lateMinutes];
      unfold Js.msPerMinute in *;
      split; intros; first [lia | repeat split; reflexivity]
    end.
Qed.

Lemma threshold_value :
  PrimFloat.ltb SIMILARITY_THRESHOLD SIMILARITY_THRESHOLD = false
  /\ PrimFloat.ltb 0.8499999%float SIMILARITY_THRESHOLD = true.
Proof. split; vm_compute; reflexivity. Qed.

(** C3: on both endpoints the score the oracle returns is compared with
    the one constant 0.85: a score below it (0.8499999 is one) is answered
    with the generic verification failure and nothing is written; a score
    that is not below it, exactly 0.85 in particular, passes the gate: the
    handler goes on to save a record carrying that score. *)
Theorem similarity_threshold_gate
    (r : Request) (env : Env) (s : Store) (sim : float) :
  In (OracleCall (Some sim)) (events (serve r env s)) ->
  SIMILARITY_THRESHOLD = 0.85%float
  /\ PrimFloat.ltb 0.8499999%float SIMILARITY_THRESHOLD = true
  /\ (PrimFloat.ltb sim SIMILARITY_THRESHOLD = true ->
        response (serve r env s) = verificationFailed
        /\ after (serve r env s) = s)
  /\ (sim = SIMILARITY_THRESHOLD
      \/ PrimFloat.ltb sim SIMILARITY_THRESHOLD = false ->
        response (serve r env s) <> verificationFailed
        /\ exists d o, In (AttendanceSave d o) (events (serve r env s))
                       /\ Attendance.confidenceScore d = sim).
Proof.
  intros H; split; [reflexivity|]; split; [apply threshold_value|].
  assert (G : sim = SIMILARITY_THRESHOLD
              \/ PrimFloat.ltb sim SIMILARITY_THRESHOLD = false ->
              PrimFloat.ltb sim SIMILARITY_THRESHOLD = false)
    by (intros [-> | L]; [apply threshold_value | exact L]).
  revert H G; run_handler r env s; intros H G; try solve [refute_in H];
    cbn [In] in H;
    repeat (destruct H as [H|H]; [try discriminate H|]); try solve [destruct H];
    inversion H; subst sim; clear H;
    (split; [intros L | intros L; apply G in L];
     [ first [ split; reflexivity | congruence ]
     | first [ congruence
             | split; [ discriminate
                      | eexists; eexists;
                        split; [cbn [In]; eauto 10 | reflexivity] ] ] ]).
Qed.

(* ================================================================== *)
(** ** Losing the commit race *)

(** The embedding handler turns the duplicate-key error of its insert into
    the 400 rejection. *)
Lemma embedding_commit_race_is_rejection
    (req : EmbeddingRequest) (env : Env) (s : Store) (d : Attendance.doc) :
  In (AttendanceSave d (Some Attendance.DuplicateKey))
     (events (markAttendance req env s)) ->
  response (markAttendance req env s)
  = Failure 400 "Attendance already marked for today"
  /\ after (markAttendance req env s) = s.
Proof.
  change (markAttendance req env s) with (serve (Embedding req) env s).
  run_endpoint (Embedding req) env s;
    intros H; try solve [refute_in H];
    cbn [In] in H;
    repeat (destruct H as [H|H]; [try discriminate H|]); try solve [destruct H];
    inversion H; subst;
    split; reflexivity.
Qed.

(** The image handler has no such case in its [catch]: the same error
    leaves it as the 500 answer. *)
Lemma image_commit_race_is_fault
    (req : ImageRequest) (env : Env) (s : Store) (d : Attendance.doc) :
  In (AttendanceSave d (Some Attendance.DuplicateKey))
     (events (markAttendanceImage req env s)) ->
  response (markAttendanceImage req env s)
  = Failure 500 "Failed to mark attendance. Please try again.".
Proof.
  change (markAttendanceImage req env s) with (serve (Image req) env s).
  run_endpoint (Image req) env s;
    intros H; try solve [refute_in H];
    cbn [In] in H;
    repeat (destruct H as [H|H]; [try discriminate H|]); try solve [destruct H];
    inversion H; subst;
    reflexivity.
Qed.

(** C4: a concurrent submission of the same student has committed after
    this one's duplicate lookup; the insert of the image handler is refused
    by the unique index and the handler answers 500 "Failed to mark
    attendance", where the embedding handler, in the same situation,
    answers 400 "Attendance already marked for today". *)
Theorem image_commit_race_is_server_fault :
  let env := Sample.racing (Sample.nine + Sample.minutes 10) 90%float in
  let d := Sample.record Attendance.present 0.9%float false 0 in
  In (AttendanceSave d (Some Attendance.DuplicateKey))
     (events (serve Sample.image env Sample.marked))
  /\ response (serve Sample.image env Sample.marked)
     = Failure 500 "Failed to mark attendance. Please try again."
  /\ response (serve (Sample.embedding Sample.probe) env Sample.marked)
     = Failure 400 "Attendance already marked for today".
Proof.
  cbv zeta; split; [|split].
  - vm_compute; auto 10.
  - vm_compute; reflexivity.
  - vm_compute; reflexivity.
Qed.

(** C5: a stored embedding of finite numbers against a captured one with
    an infinite component (the JSON number 1e999): the loop's NaN test lets
    Infinity through and the function returns NaN, not 0.  NaN is not below
    the threshold, so the submission passes the verification gate. *)
Theorem cosine_infinite_component_gives_nan :
  Oracle.computeCosineSimilarity Sample.enrolled Sample.overflowing = nan
  /\ PrimFloat.is_nan
       (Oracle.computeCosineSimilarity Sample.enrolled Sample.overflowing) = true
  /\ PrimFloat.eqb
       (Oracle.computeCosineSimilarity Sample.enrolled Sample.overflowing) 0 = false
  /\ existsb PrimFloat.is_nan Sample.overflowing = false
  /\ response (serve (Sample.embedding Sample.overflowing)
                 (Sample.at_ (Sample.nine + Sample.minutes 10) 90%float)
                 Sample.store0)
     <> verificationFailed.
Proof.
  repeat split; try (vm_compute; reflexivity).
  vm_compute; discriminate.
Qed.

(** C6: the cosine oracle returns -1 for opposite vectors, and
    1.0000000000000002 for the vector (1,1,1,0,...,0) against itself; the
    second score passes the threshold and is then refused by the schema
    ([max: 1] on confidenceScore), so that a student showing exactly the
    registered embedding gets the 500 answer.  The provider adapter divides
    whatever number it is given by 100. *)
Theorem cosine_score_outside_unit_interval :
  Oracle.computeCosineSimilarity Sample.enrolled Sample.opposite = (-1)%float
  /\ PrimFloat.ltb (Oracle.computeCosineSimilarity Sample.enrolled Sample.opposite) 0
     = true
  /\ PrimFloat.ltb 1 (Oracle.computeCosineSimilarity Sample.three Sample.three)
     = true
  /\ response (serve Sample.bobEmbedding
                 (Sample.at_ (Sample.nine + Sample.minutes 10) 90%float)
                 Sample.store0)
     = Failure 500 "Failed to mark attendance. Please try again."
  /\ Oracle.faceppCompare (Oracle.Confidence 150) = Some 1.5%float.
Proof. repeat split; vm_compute; reflexivity. Qed.

(** C7: a submission answered by one of the checks that come before the
    verification step (course code or image missing, student not found,
    not enrolled, course not found, already marked today, no stored face
    reference, malformed face data) never reaches the oracle; and when the
    oracle is called, everything before the call is a lookup and everything
    after it is a write: it is the last gate before the commit. *)
Theorem oracle_is_last_gate (r : Request) (env : Env) (s : Store) :
  (In (response (serve r env s)) priorRejections ->
   forall sim, ~ In (OracleCall sim) (events (serve r env s)))
  /\ (forall pre sim post,
        events (serve r env s) = (pre ++ OracleCall sim :: post)%list ->
        Forall isLookup pre /\ Forall isWrite post).
Proof.
  split.
  - run_handler r env s; unfold priorRejections;
      intros H sim Hs; first [ solve [refute_in Hs] | solve [refute_in H] ].
  - apply oracleLast_split.
    run_handler r env s; reflexivity.
Qed.

(** The date in the key of the duplicate lookup and on the persisted
    record is one value, the calendar date in UTC of the instant the
    handler reads the clock for [today] (the date part of toISOString). *)
Theorem date_key_is_utc_date (r : Request) (env : Env) (s : Store) :
  (forall k, In (AttendanceLookup k) (events (serve r env s)) ->
             k = keyOfRequest r env)
  /\ (forall d o, In (AttendanceSave d o) (events (serve r env s)) ->
                  Attendance.keyOf d = keyOfRequest r env)
  /\ (forall msg d, response (serve r env s) = Success msg d ->
                    Attendance.date d = Js.toISODate (clockToday env)
                    /\ In d (attendance (after (serve r env s)))).
Proof.
  run_handler r env s; unfold keyOfRequest; cbn [studentOf courseOf];
  (split; [intros ? H | split; [intros ? ? H | intros ? ? H]]);
  try solve [refute_in H]; try discriminate H;
  try (cbn [In] in H;
       repeat (destruct H as [H|H]; [try discriminate H|]); try solve [destruct H];
       inversion H; subst; reflexivity).
  all: inversion H; subst; split; [reflexivity|].
  all: match goal with E : Attendance.save _ _ = inl _ |- _ =>
         apply save_inl in E as [-> _] end.
  all: cbn [attendance withAttendance withNotifications In]; auto.
Qed.

(* ================================================================== *)
(** ** Notifications and rejections *)

(** C9: the handler calls the notification sink if and only if it has
    committed a record with isLate = true; the call comes after the
    successful save; a committed record is always answered with the success
    response carrying it; and whether the sink stores the notification or
    refuses it changes neither the response nor the attendance ledger. *)
Theorem late_notification_best_effort (r : Request) (env : Env) (s : Store) :
  ((exists n ok, In (NotificationSave n ok) (events (serve r env s)))
   <-> (exists d, In (AttendanceSave d None) (events (serve r env s))
                  /\ Attendance.isLate d = true))
  /\ (forall pre n ok post,
        events (serve r env s) = (pre ++ NotificationSave n ok :: post)%list ->
        exists d, In (AttendanceSave d None) pre)
  /\ (forall d, In (AttendanceSave d None) (events (serve r env s)) ->
                exists msg, response (serve r env s) = Success msg d
                            /\ In d (attendance (after (serve r env s))))
  /\ (forall fails,
        response (serve r (withSink fails env) s) = response (serve r env s)
        /\ attendance (after (serve r (withSink fails env) s))
           = attendance (after (serve r env s))).
Proof.
  split; [|split; [|split]].
  - (run_handler r env s; (split;
      [ intros [xn [xok H]]; try solve [refute_in H];
        (eexists; split; [cbn [In]; eauto 10 | reflexivity])
      | intros [xd [H L]]; try solve [refute_in H];
        first [ solve [do 2 eexists; cbn [In]; eauto 10]
              | cbn [In] in H;
                repeat (destruct H as [H|H]; [try discriminate H|]);
                try solve [destruct H];
                inversion H; subst xd; cbn in L; discriminate L ] ])).
  - intros pre n ok post E.
    assert (H : notifyAfterCommit false (events (serve r env s)) = true)
      by (run_handler r env s; reflexivity).
    destruct (notifyAfterCommit_split _ _ H _ _ _ _ E) as [?|?];
      [discriminate | assumption].
  - (run_handler r env s; intros xd H; try solve [refute_in H];
      cbn [In] in H;
      repeat (destruct H as [H|H]; [try discriminate H|]); try solve [destruct H];
      inversion H; subst xd; eexists; (split; [reflexivity|]);
      match goal with E : Attendance.save _ _ = inl _ |- _ =>
        apply save_inl in E as [-> _] end;
      cbn [attendance withAttendance withNotifications In]; auto).
  - intros fails.
    remember (serve r (withSink fails env) s) as res2 eqn:E2.
    run_handler r env s; revert E2;
      unfold_handler; unfold classStartTime in *; cbv beta zeta;
      change (tzOffset (withSink fails env)) with (tzOffset env);
      change (clockToday (withSink fails env)) with (clockToday env);
      change (clockCurrent (withSink fails env)) with (clockCurrent env);
      change (clockStart (withSink fails env)) with (clockStart env);
      change (provider (withSink fails env)) with (provider env);
      change (lateCommits (withSink fails env)) with (lateCommits env);
      change (sinkFails (withSink fails env)) with fails;
      reduce_handler;
      repeat match goal with
             | E : ?x = _ |- context [match ?x with _ => _ end] =>
                 rewrite E; reduce_handler
             end;
      repeat (split_step; reduce_handler);
      intros ->; split; reflexivity.
Qed.

(** C10: a submission that is answered with a failure, whatever the
    reason, leaves the store exactly as it was: no attendance record and
    no notification is written. *)
Theorem rejection_changes_nothing
    (r : Request) (env : Env) (s : Store) (st : Z) (e : string) :
  response (serve r env s) = Failure st e ->
  after (serve r env s) = s
  /\ attendance (after (serve r env s)) = attendance s
  /\ notifications (after (serve r env s)) = notifications s
  /\ (forall d, ~ In (AttendanceSave d None) (events (serve r env s)))
  /\ (forall n, ~ In (NotificationSave n true) (events (serve r env s))).
Proof.
  run_handler r env s; intros H; try discriminate;
    (split; [reflexivity | split; [reflexivity | split; [reflexivity |
       split; intros x Hx; refute_in Hx]]]).
Qed.

(* ================================================================== *)
(** ** The word-for-word statements against the handlers *)

(** At 09:15:30 more than 15 minutes have passed since 09:00, and the
    record is present with lateMinutes 0. *)
Lemma classifiedByElapsedTime_fails : ~ classifiedByElapsedTime.
Proof.
  intros C.
  pose (env := Sample.at_ (Sample.nine + 930000) 90%float).
  destruct (response (serve Sample.image env Sample.store0)) as [st e|msg d] eqn:E.
  - vm_compute in E; discriminate E.
  - destruct (C Sample.image env Sample.store0 msg d E) as [_ L].
    destruct L as [L _]; [vm_compute; reflexivity|].
    vm_compute in E; inversion E; subst d; discriminate L.
Qed.

(** On a server at UTC+5, at 01:00 local time on 2024-01-02, the key
    carries 2024-01-01. *)
Lemma dateKeyIsLocalDate_fails : ~ dateKeyIsLocalDate.
Proof.
  intros C.
  pose (env := Sample.at_ (Sample.nine - Sample.minutes 480) 90%float).
  destruct (C Sample.image env Sample.store0) as [L _].
  specialize (L ("S001", "ICT651", "2024-01-01")).
  assert (H : In (AttendanceLookup ("S001", "ICT651", "2024-01-01"))
                 (events (serve Sample.image env Sample.store0)))
    by (vm_compute; auto 10).
  apply L in H; vm_compute in H; discriminate H.
Qed.

(** C8: the handlers take [today] from toISOString, which is the UTC
    date, while the class start of the same submission is taken from the
    server's local day (setHours).  On a server at UTC+5 a student who
    marks at 01:00 and again at 09:10 local time on 2024-01-02 gets two
    records for that one local day; on a server at UTC-8 a student who
    marked (late) at 16:30 local time on 2024-01-01 is refused at 09:05
    local time on 2024-01-02 with "already marked for today", and has no
    record for that day. *)
Theorem date_key_splits_local_day :
  let early := Sample.at_ (Sample.nine - Sample.minutes 480) 90%float in
  let morning := Sample.at_ (Sample.nine + Sample.minutes 10) 90%float in
  let first := serve Sample.image early Sample.store0 in
  let second := serve Sample.image morning (after first) in
  let evening := Demo.west (Sample.nine - Sample.minutes 210) 90%float in
  let nextDay := Demo.west (Sample.nine + Sample.minutes 785) 90%float in
  let third := serve Sample.image evening Sample.store0 in
  let fourth := serve Sample.image nextDay (after third) in
  (Js.localDate (tzOffset early) (clockToday early) = "2024-01-02"
   /\ Js.localDate (tzOffset morning) (clockToday morning) = "2024-01-02"
   /\ isSuccess (response first) = true
   /\ isSuccess (response second) = true
   /\ map Attendance.date (attendance (after second)) = ["2024-01-02"; "2024-01-01"])
  /\ (Js.localDate (tzOffset evening) (clockToday evening) = "2024-01-01"
      /\ Js.localDate (tzOffset nextDay) (clockToday nextDay) = "2024-01-02"
      /\ map Attendance.date (attendance (after third)) = ["2024-01-02"]
      /\ response fourth
         = Failure 400 "Attendance already marked for today in this course"
      /\ after fourth = after third).
Proof.
  cbv zeta; split; [split; [|split; [|split; [|split]]] | split; [|split; [|split; [|split]]]];
    vm_compute; reflexivity.
Qed.

(* ================================================================== *)
(** ** The theorems at the sample deployment *)

Lemma one_record_per_key_witness :
  reachable (after (serve Sample.image
                      (Sample.at_ (Sample.nine + Sample.minutes 10) 90%float)
                      Sample.store0))
  /\ uniquePerKey Sample.marked.(attendance)
  /\ succeeded
       (fst (commitAll [ Sample.record Attendance.present 0.9%float false 0;
                         Sample.record Attendance.late 0.95%float true 20;
                         Sample.record Attendance.present 0.9%float false 0 ]
               [])) = 1%nat.
Proof.
  assert (R : reachable (after (serve Sample.image
                (Sample.at_ (Sample.nine + Sample.minutes 10) 90%float)
                Sample.store0)))
    by (apply reach_mark; apply reach_start).
  split; [exact R|]; split.
  - exact (proj1 one_record_per_key _ R).
  - apply (proj2 (proj2 (proj2 (proj2 one_record_per_key)))
             ("S001", "ICT651", "2024-01-02")).
    + repeat constructor.
    + reflexivity.
Defined.

Lemma lateness_by_whole_minutes_witness :
  let env := Sample.at_ (Sample.nine + Sample.minutes 20) 90%float in
  let d := Sample.record Attendance.late 0.9%float true 20 in
  response (serve Sample.image env Sample.store0)
  = Success "Attendance marked successfully (Late)" d
  /\ Attendance.status d = Attendance.late
  /\ Attendance.isLate d = true
  /\ Attendance.lateMinutes d
     = (clockCurrent env - classStartTime env) / Js.msPerMinute.
Proof.
  cbv zeta.
  assert (E : response (serve Sample.image
                          (Sample.at_ (Sample.nine + Sample.minutes 20) 90%float)
                          Sample.store0)
              = Success "Attendance marked successfully (Late)"
                  (Sample.record Attendance.late 0.9%float true 20))
    by (vm_compute; reflexivity).
  split; [exact E|].
  apply (lateness_by_whole_minutes _ _ _ _ _ E).
  vm_compute; discriminate.
Defined.

Lemma similarity_threshold_gate_witness :
  let env := Sample.at_ (Sample.nine + Sample.minutes 10) 90%float in
  let res := serve (Sample.embedding Sample.probe) env Sample.store0 in
  In (OracleCall (Some SIMILARITY_THRESHOLD)) (events res)
  /\ response res <> verificationFailed
  /\ exists d o, In (AttendanceSave d o) (events res)
                 /\ Attendance.confidenceScore d = SIMILARITY_THRESHOLD.
Proof.
  cbv zeta.
  assert (H : In (OracleCall (Some SIMILARITY_THRESHOLD))
                 (events (serve (Sample.embedding Sample.probe)
                            (Sample.at_ (Sample.nine + Sample.minutes 10) 90%float)
                            Sample.store0)))
    by (vm_compute; auto 10).
  split; [exact H|].
  apply (similarity_threshold_gate _ _ _ _ H).
  left; reflexivity.
Defined.

Lemma oracle_is_last_gate_witness :
  let env := Sample.at_ (Sample.nine + Sample.minutes 10) 90%float in
  In (response (serve Sample.otherCourse env Sample.store0)) priorRejections
  /\ (forall sim,
        ~ In (OracleCall sim) (events (serve Sample.otherCourse env Sample.store0)))
  /\ Forall isLookup Sample.lookups
  /\ Forall isWrite
       [AttendanceSave (Sample.record Attendance.present 0.9%float false 0) None].
Proof.
  cbv zeta.
  assert (H : In (response (serve Sample.otherCourse
                     (Sample.at_ (Sample.nine + Sample.minutes 10) 90%float)
                     Sample.store0)) priorRejections)
    by (vm_compute; auto 10).
  split; [exact H|]; split.
  - exact (proj1 (oracle_is_last_gate _ _ _) H).
  - apply (proj2 (oracle_is_last_gate Sample.image
                    (Sample.at_ (Sample.nine + Sample.minutes 10) 90%float)
                    Sample.store0)
             Sample.lookups (Some 0.9%float)).
    vm_compute; reflexivity.
Defined.

Lemma date_key_is_utc_date_witness :
  let env := Sample.at_ (Sample.nine - Sample.minutes 480) 90%float in
  let k := ("S001", "ICT651", "2024-01-01") in
  In (AttendanceLookup k) (events (serve Sample.image env Sample.store0))
  /\ k = keyOfRequest Sample.image env
  /\ Js.localDate (tzOffset env) (clockToday env) = "2024-01-02".
Proof.
  cbv zeta.
  assert (H : In (AttendanceLookup ("S001", "ICT651", "2024-01-01"))
                 (events (serve Sample.image
                            (Sample.at_ (Sample.nine - Sample.minutes 480) 90%float)
                            Sample.store0)))
    by (vm_compute; auto 10).
  split; [exact H|]; split.
  - exact (proj1 (date_key_is_utc_date _ _ _) _ H).
  - vm_compute; reflexivity.
Defined.

Lemma late_notification_best_effort_witness :
  let env := Sample.sinkDown (Sample.nine + Sample.minutes 20) 90%float in
  let d := Sample.record Attendance.late 0.9%float true 20 in
  In (AttendanceSave d None) (events (serve Sample.image env Sample.store0))
  /\ (exists n, In (NotificationSave n false)
                   (events (serve Sample.image env Sample.store0)))
  /\ exists msg, response (serve Sample.image env Sample.store0) = Success msg d
                 /\ In d (attendance (after (serve Sample.image env Sample.store0))).
Proof.
  cbv zeta.
  assert (H : In (AttendanceSave (Sample.record Attendance.late 0.9%float true 20) None)
                 (events (serve Sample.image
                            (Sample.sinkDown (Sample.nine + Sample.minutes 20) 90%float)
                            Sample.store0)))
    by (vm_compute; auto 10).
  split; [exact H|]; split.
  - eexists; vm_compute; auto 10.
  - exact (proj1 (proj2 (proj2 (late_notification_best_effort _ _ _))) _ H).
Defined.

Lemma rejection_changes_nothing_witness :
  let env := Sample.at_ (Sample.nine + Sample.minutes 10) 90%float in
  response (serve Sample.otherCourse env Sample.store0)
  = Failure 400 "You are not enrolled in this course"
  /\ after (serve Sample.otherCourse env Sample.store0) = Sample.store0.
Proof.
  cbv zeta.
  assert (H : response (serve Sample.otherCourse
                          (Sample.at_ (Sample.nine + Sample.minutes 10) 90%float)
                          Sample.store0)
              = Failure 400 "You are not enrolled in this course")
    by (vm_compute; reflexivity).
  split; [exact H|].
  exact (proj1 (rejection_changes_nothing _ _ _ _ _ H)).
Defined.

(** The two scenarios of the specification: 09:10 is present, 09:20 is
    late by 20 minutes; and a score of exactly 0.85 is accepted on both
    endpoints. *)
Example accepted_at_threshold :
  let env := Sample.at_ (Sample.nine + Sample.minutes 10) 85%float in
  let d := Sample.record Attendance.present SIMILARITY_THRESHOLD false 0 in
  response (serve (Sample.embedding Sample.probe) env Sample.store0)
  = Success "Attendance marked successfully" d
  /\ response (serve Sample.image env Sample.store0)
     = Success "Attendance marked successfully" d.
Proof. split; vm_compute; reflexivity. Qed.

(** A double tap on the embedding endpoint: the second request's lookup
    ran before the first one's commit.  One is accepted, the other is
    rejected with 400. *)
Example double_submission :
  let t := Sample.nine + Sample.minutes 10 in
  fst (serveAll [ (Sample.embedding Sample.probe, Sample.at_ t 85%float);
                  (Sample.embedding Sample.probe, Sample.racing t 85%float) ]
         Sample.store0)
  = [ Success "Attendance marked successfully"
        (Sample.record Attendance.present SIMILARITY_THRESHOLD false 0);
      Failure 400 "Attendance already marked for today" ].
Proof. vm_compute; reflexivity. Qed.

(** 09:15:30 on the image endpoint: 930000 ms after the class start, 15
    whole minutes, present. *)
Example present_at_0915_30 :
  let env := Sample.at_ (Sample.nine + 930000) 90%float in
  clockCurrent env - classStartTime env = 930000
  /\ response (serve Sample.image env Sample.store0)
     = Success "Attendance marked successfully"
         (Sample.record Attendance.present 0.9%float false 0).
Proof. split; vm_compute; reflexivity. Qed.

Section FloatFacts.
Import Oracle.
Local Open Scope float_scope.

Lemma SFmul_comm prec emax (x y : SpecFloat.spec_float) :
  SpecFloat.SFmul prec emax x y = SpecFloat.SFmul prec emax y x.
Proof.
  destruct x as [sx|sx| |sx mx ex], y as [sy|sy| |sy my ey]; cbn [SpecFloat.SFmul];
    rewrite ?(xorb_comm sx sy), ?(Pos.mul_comm mx my), ?(Z.add_comm ex ey);
    reflexivity.
Qed.

Lemma float_mul_comm (x y : float) : x * y = y * x.
Proof.
  apply FloatAxioms.Prim2SF_inj.
  rewrite !FloatAxioms.mul_spec; apply SFmul_comm.
Qed.

Lemma cosineLoop_swap (a : list float) :
  forall b dot normA normB,
    List.length a = List.length b ->
    cosineLoop b a dot normB normA
    = match cosineLoop a b dot normA normB with
      | ReturnedZero => ReturnedZero
      | Acc d na nb => Acc d nb na
      end.
Proof.
  induction a as [|va a IH]; intros [|vb b] dot normA normB L;
    try discriminate; cbn [cosineLoop]; [reflexivity|].
  rewrite (orb_comm (PrimFloat.is_nan vb)).
  destruct (PrimFloat.is_nan va || PrimFloat.is_nan vb)%bool; [reflexivity|].
  rewrite (float_mul_comm vb va).
  apply IH; now inversion L.
Qed.

(** X2: the similarity does not depend on which of the two vectors is
    the stored one and which the captured one: the function gives the same
    float for (a, b) and for (b, a). *)
Theorem cosine_symmetric (a b : list float) :
  computeCosineSimilarity a b = computeCosineSimilarity b a.
Proof.
  unfold computeCosineSimilarity.
  rewrite (Nat.eqb_sym (List.length b) (List.length a)).
  rewrite (orb_comm (Nat.eqb (List.length b) 0)).
  destruct (Nat.eqb (List.length a) 0 || Nat.eqb (List.length b) 0
            || negb (Nat.eqb (List.length a) (List.length b)))%bool eqn:G;
    [reflexivity|].
  apply orb_false_iff in G as [_ G]; apply negb_false_iff, Nat.eqb_eq in G.
  rewrite (cosineLoop_swap a b 0 0 0 G).
  destruct (cosineLoop a b 0 0 0) as [|d na nb]; [reflexivity|].
  rewrite (orb_comm (PrimFloat.eqb nb 0)).
  rewrite (float_mul_comm (PrimFloat.sqrt nb)); reflexivity.
Qed.

(** X1: computeCosineSimilarity answers 0, a score below the threshold,
    whenever a vector is empty, the lengths differ, an element is NaN, or
    one of the vectors is all zeros. *)
Theorem cosine_fails_closed (a b : list float) :
  a = [] \/ b = [] \/ List.length a <> List.length b
  \/ (existsb PrimFloat.is_nan a || existsb PrimFloat.is_nan b)%bool = true
  \/ Forall isZero a \/ Forall isZero b ->
  computeCosineSimilarity a b = 0.
Proof.
  intros [-> | [-> | [H | [H | H]]]].
  - apply cosine_empty_left.
  - apply cosine_empty_right.
  - now apply cosine_length_mismatch.
  - now apply cosine_nan_element.
  - now apply cosine_zero_norm.
Qed.

End FloatFacts.

Lemma upperChar_idempotent (c : ascii) : Js.upperChar (Js.upperChar c) = Js.upperChar c.
Proof.
  destruct c as [[] [] [] [] [] [] [] []]; vm_compute; reflexivity.
Qed.

Lemma toUpperCase_idempotent (s : string) :
  Js.toUpperCase (Js.toUpperCase s) = Js.toUpperCase s.
Proof.
  induction s as [|c s IH]; [reflexivity|].
  cbn [Js.toUpperCase]; rewrite upperChar_idempotent, IH; reflexivity.
Qed.

Lemma serve_footprint (r : Request) (env : Env) (s : Store) :
  users (after (serve r env s)) = users s
  /\ courses (after (serve r env s)) = courses s
  /\ (attendance (after (serve r env s)) = attendance s
      /\ notifications (after (serve r env s)) = notifications s
      \/ exists d, attendance (after (serve r env s)) = d :: attendance s
                   /\ recordOk d
                   /\ Attendance.keyOf d = keyOfRequest r env
                   /\ (notifications (after (serve r env s)) = notifications s
                       \/ exists n, notifications (after (serve r env s))
                                    = n :: notifications s
                                    /\ Attendance.isLate d = true
                                    /\ Notification.userId n = studentOf r
                                    /\ Notification.courseCode n = Attendance.courseCode d)).
Proof.
  run_handler r env s;
    cbn [users courses attendance notifications withAttendance withNotifications];
    (split; [reflexivity|]); (split; [reflexivity|]);
    try (left; split; reflexivity).
  all: right;
    match goal with E : Attendance.save _ _ = inl _ |- _ =>
      apply save_inl in E as [-> [_ V]] end;
    match goal with E : lateness _ _ = _ |- _ =>
      rewrite lateness_cases in E;
      destruct (Z.ltb_spec (clockCurrent env - classStartTime env) (16 * Js.msPerMinute)) as [T|T];
      inversion E; subst; clear E end;
    eexists; (split; [reflexivity|]);
    (split; [ unfold recordOk;
              cbn [Attendance.status Attendance.isLate Attendance.lateMinutes
                   Attendance.confidenceScore Attendance.courseCode];
              split; [ first [ left; repeat split; reflexivity
                             | right; repeat split;
                               apply Z.div_le_lower_bound;
                               unfold Js.msPerMinute in *; lia ]
                     | split; [exact V | split; [assumption | apply toUpperCase_idempotent]] ]
            | split; [reflexivity|] ]);
    first [ left; reflexivity
          | right; eexists; repeat split; reflexivity ].
Qed.

Lemma reachable_records_ok (s : Store) :
  reachable s -> Forall recordOk (attendance s).
Proof.
  induction 1 as [us cs ns | s r env _ IH | s sid _ IH | s us cs ns _ IH];
    cbn [attendance withAttendance].
  - constructor.
  - destruct (serve_footprint r env s) as [_ [_ [[-> _] | [d [-> [Hd _]]]]]];
      [exact IH | constructor; [exact Hd | exact IH]].
  - unfold Attendance.deleteMany; apply Forall_forall; intros d Hd.
    apply filter_In in Hd as [Hd _]; revert d Hd; apply Forall_forall, IH.
  - exact IH.
Qed.

Lemma findOne_head (d : Attendance.doc) (l : Attendance.ledger) (k : Attendance.key) :
  Attendance.keyOf d = k -> Attendance.findOne (d :: l) k = Some d.
Proof.
  intros <-; unfold Attendance.findOne; cbn [find]; rewrite key_eqb_refl; reflexivity.
Qed.

(** X3: a face comparison gives no score exactly when the request is
    on the image endpoint, reaches the provider call, and faceppCompare
    throws (the call fails or answers without a numeric confidence); the
    request is then answered 400 "Face verification failed. Please try
    again." and the store is left as it was. *)
Theorem oracle_failure_is_verification_failure (r : Request) (env : Env) (s : Store) :
  (In (OracleCall None) (events (serve r env s))
   <-> (exists req, r = Image req)
       /\ Oracle.faceppCompare (provider env) = None
       /\ exists sim, In (OracleCall sim) (events (serve r env s)))
  /\ (In (OracleCall None) (events (serve r env s)) ->
      response (serve r env s)
      = Failure 400 "Face verification failed. Please try again."
      /\ after (serve r env s) = s).
Proof.
  run_handler r env s;
    (split; [split; [intros H | intros [[req' R] [N [sim H]]]] | intros H]);
    try solve [refute_in H]; try discriminate R; try congruence;
    try (cbn [In] in H;
         repeat (destruct H as [H|H]; [try discriminate H|]);
         try solve [destruct H]);
    try solve [ split; [eexists; reflexivity |
                        split; [reflexivity | exists None; cbn [In]; auto 8]] ];
    try solve [ cbn [In]; auto 8 ];
    try solve [ split; reflexivity ].
Qed.

(** X6: after a submission was accepted, the same request sent again on
    the same UTC day, its duplicate lookup seeing that record, is answered
    400 "Attendance already marked for today in this course" and changes
    nothing, whatever the time of day and the provider's answer. *)
Theorem second_submission_is_rejected
    (r : Request) (env env' : Env) (s : Store) (msg : string) (d : Attendance.doc) :
  response (serve r env s) = Success msg d ->
  Js.toISODate (clockToday env') = Js.toISODate (clockToday env) ->
  lateCommits env' = 0%nat ->
  response (serve r env' (after (serve r env s)))
  = Failure 400 "Attendance already marked for today in this course"
  /\ after (serve r env' (after (serve r env s))) = after (serve r env s).
Proof.
  intros H D L.
  remember (serve r env' (after (serve r env s))) as res2 eqn:E2.
  revert H; run_handler r env s; intros H; try discriminate H; clear H;
    revert E2; unfold_handler; cbv beta zeta;
    cbn [store users courses attendance notifications withAttendance withNotifications];
    rewrite ?D, ?L;
    reduce_handler;
    repeat match goal with
           | E : ?x = _ |- context [match ?x with _ => _ end] =>
               rewrite E; reduce_handler
           end;
    match goal with E : Attendance.save _ _ = inl _ |- _ =>
      apply save_inl in E as [-> _] end;
    cbn [skipn]; rewrite findOne_head by reflexivity; reduce_handler;
    intros ->; split; reflexivity.
Qed.

Section AuthFacts.
Import Auth.

Lemma spaceFree_tail c s : spaceFree (String c s) -> c <> " "%char /\ spaceFree s.
Proof.
  intros H; split.
  - intros ->; apply (H 0%nat); reflexivity.
  - intros n; apply (H (S n)).
Qed.

Lemma split_spaceFree (s : string) : spaceFree s -> JsString.split " " s = [s].
Proof.
  induction s as [|c s IH]; intros H; [reflexivity|].
  apply spaceFree_tail in H as [Hc Hs].
  cbn [JsString.split]. destruct (Ascii.eqb_spec c " "%char) as [->|_]; [congruence|].
  rewrite (IH Hs); reflexivity.
Qed.

Lemma split_scheme_token (scheme token : string) :
  spaceFree scheme -> spaceFree token ->
  JsString.split " " (scheme ++ " " ++ token) = [scheme; token].
Proof.
  intros Hs Ht; induction scheme as [|c scheme IH].
  - cbn. rewrite (split_spaceFree token Ht); reflexivity.
  - apply spaceFree_tail in Hs as [Hc Hs].
    cbn [String.append JsString.split].
    destruct (Ascii.eqb_spec c " "%char) as [->|_]; [congruence|].
    change (String.append scheme (String " " token)) with (scheme ++ " " ++ token).
    rewrite (IH Hs); reflexivity.
Qed.

(** X8: authenticateToken takes the second word of the Authorization
    header as the token and never looks at the first: with any scheme word
    in place of "Bearer" the outcome is the same, 401 for an empty token,
    403 for a token that does not verify, and otherwise the payload. *)
Theorem authenticateToken_scheme_unchecked
    (verify : string -> option TokenPayload) (scheme token : string) :
  spaceFree scheme -> spaceFree token ->
  authenticateToken verify (Some (scheme ++ " " ++ token))
  = if String.eqb token "" then inl (Failure 401 "Access token required")
    else match verify token with
         | None => inl (Failure 403 "Invalid or expired token")
         | Some user => inr user
         end.
Proof.
  intros Hs Ht; unfold authenticateToken, tokenOf.
  destruct (String.eqb_spec (scheme ++ " " ++ token) "") as [E|_].
  - destruct scheme; discriminate E.
  - rewrite (split_scheme_token scheme token Hs Ht); cbn [nth_error missing text].
    reflexivity.
Qed.

(** X9: behind authenticateToken and requireStudent, a request without
    a valid student token is answered 401 or 403 before the handler runs:
    no lookup, no provider call, no write.  With a student token the
    handler runs for the student of the token, so every record the route
    adds belongs to that student. *)
Theorem attendanceRoute_guard
    (verify : string -> option TokenPayload) (authHeader : option string)
    (body : Submission) (env : Env) (s : Store) :
  ((forall sid, Auth.authenticateToken verify authHeader <> inr (StudentToken sid)) ->
   after (attendanceRoute verify authHeader body env s) = s
   /\ events (attendanceRoute verify authHeader body env s) = []
   /\ In (response (attendanceRoute verify authHeader body env s))
        [ Failure 401 "Access token required";
          Failure 403 "Invalid or expired token";
          Failure 403 "Student access required" ])
  /\ (forall sid,
        Auth.authenticateToken verify authHeader = inr (StudentToken sid) ->
        attendanceRoute verify authHeader body env s = serve (withUser sid body) env s
        /\ forall d,
             In d (attendance (after (attendanceRoute verify authHeader body env s))) ->
             In d (attendance s) \/ Attendance.studentId d = sid).
Proof.
  split.
  - intros H; unfold attendanceRoute.
    destruct (authenticateToken verify authHeader) as [r|[u l|sid]] eqn:E.
    + cbn [after events response]; split; [reflexivity|]; split; [reflexivity|].
      unfold authenticateToken in E.
      destruct (missing (tokenOf authHeader)); [inversion E; left; reflexivity|].
      destruct (verify (text (tokenOf authHeader))); inversion E.
      right; left; reflexivity.
    + cbn [after events response requireStudent role]; split; [reflexivity|];
        split; [reflexivity|].
      right; right; left; reflexivity.
    + exfalso; apply (H sid); reflexivity.
  - intros sid E.
    assert (R : attendanceRoute verify authHeader body env s
                = serve (withUser sid body) env s)
      by (unfold attendanceRoute; rewrite E; reflexivity).
    split; [exact R|]; rewrite R.
    intros d Hd.
    destruct (serve_footprint (withUser sid body) env s)
      as [_ [_ [[A _] | [d' [A [_ [K _]]]]]]];
      rewrite A in Hd; [left; exact Hd|].
    destruct Hd as [<- | Hd]; [right | left; exact Hd].
    unfold Attendance.keyOf, keyOfRequest in K; inversion K.
    destruct body; assumption.
Qed.

End AuthFacts.

Section Registration.

Lemma setFaceEncodings_keepsIdentity xs : keepsIdentity (setFaceEncodings xs).
Proof. intros u; repeat split. Qed.

Lemma setFaceToken_keepsIdentity t : keepsIdentity (setFaceToken t).
Proof. intros u; repeat split. Qed.

Lemma matchesStudent_change (change : User.doc -> User.doc) (sid : string) (u : User.doc) :
  keepsIdentity change -> matchesStudent sid (change u) = matchesStudent sid u.
Proof.
  intros K; destruct (K u) as [K1 [K2 K3]].
  unfold matchesStudent, User.isStudent; rewrite K1, K2, K3; reflexivity.
Qed.

Lemma matchesStudent_id (sid : string) (u : User.doc) :
  matchesStudent sid u = true -> User.studentId u = sid.
Proof.
  unfold matchesStudent; intros H.
  apply andb_true_iff in H as [H _]; apply andb_true_iff in H as [H _].
  now apply String.eqb_eq.
Qed.

(** Saving the changed document changes what [User.findOne] returns for
    that student id, and for no other. *)
Lemma findOne_saveStudent (change : User.doc -> User.doc) (sid sid' : string)
    (us : list User.doc) :
  keepsIdentity change ->
  User.findOne (saveStudent sid change us) sid'
  = if String.eqb sid' sid then option_map change (User.findOne us sid)
    else User.findOne us sid'.
Proof.
  intros K.
  change (find (matchesStudent sid') (saveStudent sid change us)
          = if String.eqb sid' sid
            then option_map change (find (matchesStudent sid) us)
            else find (matchesStudent sid') us).
  induction us as [|u us IH].
  - cbn; destruct (String.eqb sid' sid); reflexivity.
  - cbn [saveStudent]; fold (matchesStudent sid u).
    destruct (matchesStudent sid u) eqn:M; cbn [find].
    + rewrite (matchesStudent_change change sid' u K), M.
      destruct (String.eqb_spec sid' sid) as [->|N].
      * rewrite M; reflexivity.
      * destruct (matchesStudent sid' u) eqn:M'; [|reflexivity].
        apply matchesStudent_id in M, M'; congruence.
    + rewrite IH, M.
      destruct (String.eqb_spec sid' sid) as [->|N].
      * rewrite M; reflexivity.
      * reflexivity.
Qed.

Lemma numbersOf_finite (vs : list Json) :
  forallb isFiniteNumber vs = true ->
  List.length (numbersOf vs) = List.length vs
  /\ forallb (fun x => negb (PrimFloat.is_nan x || PrimFloat.is_infinity x))
       (numbersOf vs) = true
  /\ vs = map JNumber (numbersOf vs).
Proof.
  induction vs as [|[x|] vs IH]; cbn [forallb isFiniteNumber]; intros H.
  - repeat split.
  - apply andb_true_iff in H as [Hx H]; destruct (IH H) as [L [F M]].
    cbn [numbersOf flat_map app List.length forallb map] in *.
    fold (numbersOf vs); rewrite L, Hx, F, <- M; repeat split.
  - discriminate H.
Qed.

End Registration.

Section RegistrationRoutes.

Lemma registerFace_success (sid : string) (encodings : option (list Json))
    (s : Store) (st : Z) (msg : option string) :
  fst (registerFace sid encodings s) = Replied st msg tt ->
  exists vs u,
    encodings = Some vs
    /\ vs = map JNumber (numbersOf vs)
    /\ (64 <= List.length (numbersOf vs) <= 1024)%nat
    /\ forallb (fun x => negb (PrimFloat.is_nan x || PrimFloat.is_infinity x))
         (numbersOf vs) = true
    /\ User.findOne (users s) sid = Some u
    /\ User.findOne (users (snd (registerFace sid encodings s))) sid
       = Some (setFaceEncodings (numbersOf vs) u)
    /\ (forall sid', sid' <> sid ->
          User.findOne (users (snd (registerFace sid encodings s))) sid'
          = User.findOne (users s) sid')
    /\ courses (snd (registerFace sid encodings s)) = courses s
    /\ attendance (snd (registerFace sid encodings s)) = attendance s
    /\ notifications (snd (registerFace sid encodings s)) = notifications s.
Proof.
  unfold registerFace.
  destruct encodings as [[|v vs]|]; try discriminate.
  set (all := v :: vs).
  destruct (negb (forallb isFiniteNumber all) || Nat.ltb (List.length all) 64
            || Nat.ltb 1024 (List.length all))%bool eqn:G; [discriminate|].
  destruct (User.findOne (users s) sid) as [u|] eqn:F; [|discriminate].
  intros _; cbn [fst snd users courses attendance notifications withUsers].
  apply orb_false_iff in G as [G G3]; apply orb_false_iff in G as [G1 G2].
  apply negb_false_iff in G1.
  apply Nat.ltb_ge in G2, G3.
  destruct (numbersOf_finite all G1) as [L [Fin M]].
  exists all, u; rewrite L.
  repeat split; try assumption.
  - rewrite (findOne_saveStudent _ sid sid _ (setFaceEncodings_keepsIdentity _)).
    rewrite String.eqb_refl, F; reflexivity.
  - intros sid' N.
    rewrite (findOne_saveStudent _ sid sid' _ (setFaceEncodings_keepsIdentity _)).
    destruct (String.eqb_spec sid' sid); [congruence | reflexivity].
Qed.

(** X11: a refused face registration, by embedding or by image, leaves
    the store as it was; and without the Face++ key or secret the image
    registration is always refused with status 400. *)
Theorem registration_refusal_changes_nothing
    (cfg : FaceppConfig) (reply : detectReply) (sid : string)
    (encodings : option (list Json)) (imageBase64 : option string) (s : Store) :
  (forall st e, fst (registerFace sid encodings s) = Refused st e ->
                snd (registerFace sid encodings s) = s)
  /\ (forall st e, fst (registerFaceImage cfg reply sid imageBase64 s) = Refused st e ->
                   snd (registerFaceImage cfg reply sid imageBase64 s) = s)
  /\ (FACEPP_API_KEY cfg = "" \/ FACEPP_API_SECRET cfg = "" ->
      snd (registerFaceImage cfg reply sid imageBase64 s) = s
      /\ exists e, fst (registerFaceImage cfg reply sid imageBase64 s) = Refused 400 e).
Proof.
  split; [|split].
  - intros st e; unfold registerFace.
    destruct encodings as [[|v vs]|]; try reflexivity.
    destruct (negb (forallb isFiniteNumber (v :: vs)) || _ || _)%bool; [reflexivity|].
    destruct (User.findOne (users s) sid); [discriminate | reflexivity].
  - intros st e; unfold registerFaceImage.
    destruct (missing imageBase64); [reflexivity|].
    destruct (faceppDetectGetToken cfg reply); [|reflexivity].
    destruct (User.findOne (users s) sid); [discriminate | reflexivity].
  - intros H; unfold registerFaceImage.
    destruct (missing imageBase64); [split; [reflexivity | eexists; reflexivity]|].
    assert (D : faceppDetectGetToken cfg reply = None).
    { unfold faceppDetectGetToken; destruct H as [-> | ->];
        rewrite ?orb_true_r; reflexivity. }
    rewrite D; split; [reflexivity | eexists; reflexivity].
Qed.

Lemma registerFaceImage_success
    (cfg : FaceppConfig) (reply : detectReply) (sid : string)
    (imageBase64 : option string) (s : Store) (st : Z) (msg : option string) :
  fst (registerFaceImage cfg reply sid imageBase64 s) = Replied st msg tt ->
  exists tokens t,
    reply = DetectFaces (t :: tokens)
    /\ faceStatus sid (snd (registerFaceImage cfg reply sid imageBase64 s))
       = Replied 200 None (negb (missing t))
    /\ (forall sid', sid' <> sid ->
          faceStatus sid' (snd (registerFaceImage cfg reply sid imageBase64 s))
          = faceStatus sid' s).
Proof.
  unfold registerFaceImage.
  destruct (missing imageBase64); [discriminate|].
  unfold faceppDetectGetToken.
  destruct (String.eqb (FACEPP_API_KEY cfg) "" || String.eqb (FACEPP_API_SECRET cfg) "")%bool;
    [discriminate|].
  destruct reply as [| | |[|t tokens]]; try discriminate.
  destruct (User.findOne (users s) sid) as [u|] eqn:F; [|discriminate].
  intros _; exists tokens, t; cbn [snd]; unfold faceStatus; cbn [users withUsers].
  split; [reflexivity|]; split.
  - rewrite (findOne_saveStudent _ sid sid _ (setFaceToken_keepsIdentity _)).
    rewrite String.eqb_refl, F; reflexivity.
  - intros sid' N.
    rewrite (findOne_saveStudent _ sid sid' _ (setFaceToken_keepsIdentity _)).
    destruct (String.eqb_spec sid' sid); [congruence | reflexivity].
Qed.

(** X13: the two registration routes write different fields: registering
    an embedding never changes anybody's face status (the Face++ token),
    and registering an image never changes anybody's stored embedding. *)
Theorem face_references_are_independent
    (cfg : FaceppConfig) (reply : detectReply) (sid sid' : string)
    (encodings : option (list Json)) (imageBase64 : option string) (s : Store) :
  faceStatus sid' (snd (registerFace sid encodings s)) = faceStatus sid' s
  /\ option_map User.faceEncodings
       (User.findOne (users (snd (registerFaceImage cfg reply sid imageBase64 s))) sid')
     = option_map User.faceEncodings (User.findOne (users s) sid').
Proof.
  split.
  - unfold registerFace, faceStatus.
    destruct encodings as [[|v vs]|]; try reflexivity.
    destruct (negb (forallb isFiniteNumber (v :: vs)) || _ || _)%bool; [reflexivity|].
    destruct (User.findOne (users s) sid) as [u|] eqn:F; [|reflexivity].
    cbn [snd users withUsers].
    rewrite (findOne_saveStudent _ sid sid' _ (setFaceEncodings_keepsIdentity _)).
    destruct (String.eqb_spec sid' sid) as [->|_]; [|reflexivity].
    rewrite F; reflexivity.
  - unfold registerFaceImage.
    destruct (missing imageBase64); [reflexivity|].
    destruct (faceppDetectGetToken cfg reply); [|reflexivity].
    destruct (User.findOne (users s) sid) as [u|] eqn:F; [|reflexivity].
    cbn [snd users withUsers].
    rewrite (findOne_saveStudent _ sid sid' _ (setFaceToken_keepsIdentity _)).
    destruct (String.eqb_spec sid' sid) as [->|_]; [|reflexivity].
    rewrite F; reflexivity.
Qed.

End RegistrationRoutes.

Section RegistrationThenAttendance.

Lemma embedding_uses_stored_vector (req : EmbeddingRequest) (env : Env) (s : Store)
    (u : User.doc) :
  User.findOne (users s) (e_studentId req) = Some u ->
  (User.faceEncodings u <> [] -> response (markAttendance req env s) <> noEncodings)
  /\ (forall sim, In (OracleCall sim) (events (markAttendance req env s)) ->
        exists fd, e_faceData req = Some fd
                   /\ List.length fd = List.length (User.faceEncodings u)
                   /\ sim = Some (Oracle.computeCosineSimilarity (User.faceEncodings u) fd)).
Proof.
  change (markAttendance req env s) with (serve (Embedding req) env s).
  run_endpoint (Embedding req) env s; intros F; try discriminate F;
    inversion F; subst; clear F;
    (split; [ intros N; try discriminate;
              match goal with E : Nat.eqb (List.length _) 0 = true |- _ =>
                apply Nat.eqb_eq in E; destruct (User.faceEncodings _);
                [congruence | discriminate E] end
            | intros sim H; try solve [refute_in H];
              cbn [In] in H;
              repeat (destruct H as [H|H]; [try discriminate H|]);
              try solve [destruct H];
              inversion H; subst; eexists; repeat split;
              match goal with E : negb (Nat.eqb _ _) = false |- _ =>
                apply negb_false_iff, Nat.eqb_eq in E; exact E end ]).
Qed.

Lemma image_uses_stored_token (req : ImageRequest) (env : Env) (s : Store)
    (u : User.doc) :
  User.findOne (users s) (i_studentId req) = Some u ->
  missing (User.faceToken u) = false ->
  response (markAttendanceImage req env s) <> noFaceToken.
Proof.
  change (markAttendanceImage req env s) with (serve (Image req) env s).
  run_endpoint (Image req) env s; intros F T; try discriminate;
    inversion F; subst; congruence.
Qed.

(** X14: after a successful registration the matching attendance
    endpoint no longer answers "register your face first": any comparison
    the embedding endpoint makes is of exactly the registered numbers with
    a captured vector of the same length, and the image endpoint finds the
    registered token when the provider issued a non-empty one. *)
Theorem registration_enables_attendance
    (cfg : FaceppConfig) (reply : detectReply) (sid : string) (s : Store)
    (st : Z) (msg : option string) (env : Env) (courseCode : option string) :
  (forall vs faceData,
     fst (registerFace sid (Some vs) s) = Replied st msg tt ->
     let s' := snd (registerFace sid (Some vs) s) in
     let req := {| e_studentId := sid; e_courseCode := courseCode;
                   e_faceData := faceData |} in
     response (markAttendance req env s') <> noEncodings
     /\ forall sim, In (OracleCall sim) (events (markAttendance req env s')) ->
          exists fd, faceData = Some fd
                     /\ List.length fd = List.length (numbersOf vs)
                     /\ sim = Some (Oracle.computeCosineSimilarity (numbersOf vs) fd))
  /\ (forall imageBase64 image t tokens,
     fst (registerFaceImage cfg reply sid imageBase64 s) = Replied st msg tt ->
     reply = DetectFaces (Some t :: tokens) -> t <> "" ->
     let s' := snd (registerFaceImage cfg reply sid imageBase64 s) in
     let req := {| i_studentId := sid; i_courseCode := courseCode;
                   i_imageBase64 := image |} in
     response (markAttendanceImage req env s') <> noFaceToken).
Proof.
  split.
  - intros vs faceData H s' req.
    destruct (registerFace_success sid (Some vs) s st msg H)
      as [vs' [u [E [_ [[L _] [_ [_ [F _]]]]]]]].
    inversion E; subst vs'; clear E.
    destruct (embedding_uses_stored_vector req env s' _ F) as [A B].
    split.
    + apply A; cbn [User.faceEncodings setFaceEncodings].
      destruct (numbersOf vs); [cbn in L; lia | discriminate].
    + intros sim Hs; destruct (B sim Hs) as [fd [E1 [E0 E2]]].
      exists fd; split; [exact E1 | split; [exact E0 | exact E2]].
  - intros imageBase64 image t tokens H R N s' req.
    destruct (registerFaceImage_success cfg reply sid imageBase64 s st msg H)
      as [tokens' [t' [R' [St _]]]].
    rewrite R in R'; inversion R'; subst t' tokens'; clear R'.
    unfold faceStatus in St; fold s' in St.
    destruct (User.findOne (users s') sid) as [u|] eqn:F; [|discriminate St].
    apply (image_uses_stored_token req env s' u F).
    inversion St as [M]; apply negb_true_iff.
    rewrite M; cbn [missing negb]; apply negb_true_iff.
    now apply String.eqb_neq.
Qed.

End RegistrationThenAttendance.

Section EncodingsInvariant.

Lemma saveStudent_Forall (P : User.doc -> Prop) (sid : string)
    (change : User.doc -> User.doc) (us : list User.doc) :
  (forall u, P u -> P (change u)) -> Forall P us -> Forall P (saveStudent sid change us).
Proof.
  intros C; induction 1 as [|u us Hu Hus IH]; cbn [saveStudent]; [constructor|].
  destruct (String.eqb (User.studentId u) sid && User.isStudent u && User.isActive u)%bool;
    constructor; auto.
Qed.

(** X15: if every stored embedding is empty or a vector of 64 to 1024
    finite numbers, this still holds after either registration route and
    after either attendance handler. *)
Theorem stored_encodings_stay_valid
    (cfg : FaceppConfig) (reply : detectReply) (sid : string)
    (encodings : option (list Json)) (imageBase64 : option string)
    (r : Request) (env : Env) (s : Store) :
  encodingsInvariant s ->
  encodingsInvariant (snd (registerFace sid encodings s))
  /\ encodingsInvariant (snd (registerFaceImage cfg reply sid imageBase64 s))
  /\ encodingsInvariant (after (serve r env s)).
Proof.
  intros I; split; [|split].
  - unfold registerFace.
    destruct encodings as [[|v vs]|]; try exact I.
    destruct (negb (forallb isFiniteNumber (v :: vs)) || Nat.ltb (List.length (v :: vs)) 64
              || Nat.ltb 1024 (List.length (v :: vs)))%bool eqn:G; [exact I|].
    destruct (User.findOne (users s) sid); [|exact I].
    apply orb_false_iff in G as [G G3]; apply orb_false_iff in G as [G1 G2].
    apply negb_false_iff in G1; apply Nat.ltb_ge in G2, G3.
    destruct (numbersOf_finite _ G1) as [L [Fin _]].
    unfold encodingsInvariant; cbn [snd users withUsers].
    apply saveStudent_Forall; [|exact I].
    intros u _; cbn [User.faceEncodings setFaceEncodings].
    right; rewrite L; split; [split; assumption | exact Fin].
  - unfold registerFaceImage.
    destruct (missing imageBase64); [exact I|].
    destruct (faceppDetectGetToken cfg reply); [|exact I].
    destruct (User.findOne (users s) sid); [|exact I].
    unfold encodingsInvariant; cbn [snd users withUsers].
    apply saveStudent_Forall; [|exact I].
    intros u Hu; exact Hu.
  - unfold encodingsInvariant.
    destruct (serve_footprint r env s) as [-> _]; exact I.
Qed.

End EncodingsInvariant.

Section DashboardFacts.
Import Dashboard.

Lemma status_count_split (records : list Attendance.doc) :
  Z.of_nat (List.length records)
  = countStatus Attendance.present records + countStatus Attendance.late records
    + countStatus Attendance.absent records + countStatus Attendance.excused records.
Proof.
  unfold countStatus; induction records as [|d records IH]; [reflexivity|].
  cbn [filter List.length]; destruct (Attendance.status d); cbn [status_eqb List.length];
    rewrite ?Nat2Z.inj_succ; lia.
Qed.

Lemma statistics_split (records : list Attendance.doc) :
  let st := statistics records in
  totalSessions st = presentSessions st + lateSessions st + absentSessions st
  /\ absentSessions st
     = countStatus Attendance.absent records + countStatus Attendance.excused records
  /\ 0 <= presentSessions st /\ 0 <= lateSessions st /\ 0 <= absentSessions st.
Proof.
  cbv zeta; unfold statistics;
    cbn [totalSessions presentSessions lateSessions absentSessions].
  pose proof (status_count_split records) as E.
  unfold countStatus in *; repeat split; lia.
Qed.

Lemma stat_eq (a b : CourseStat) :
  total a = total b -> present a = present b -> late a = late b ->
  absent a = absent b -> excusedIsNaN a = excusedIsNaN b -> a = b.
Proof. destruct a, b; cbn; intros; subst; reflexivity. Qed.

Lemma plus_cons (c : CourseStat) (d : Attendance.doc) (records : list Attendance.doc) :
  plusRecords (count (Attendance.status d) c) records = plusRecords c (d :: records).
Proof.
  unfold plusRecords, countStatus; cbn [filter existsb List.length].
  destruct (Attendance.status d);
    cbn [count status_eqb total present late absent excusedIsNaN List.length orb];
    apply stat_eq; cbn [total present late absent excusedIsNaN];
    rewrite ?Nat2Z.inj_succ, ?orb_true_r; try lia; reflexivity.
Qed.

Lemma lookup_countOwn (code code' : string) (st : Attendance.Status)
    (stats : CourseStats) :
  lookup code' (countOwn code st stats)
  = if String.eqb code code'
    then Some (count st (match lookup code stats with Some c => c | None => emptyStat end))
    else lookup code' stats.
Proof.
  induction stats as [|[c entry] rest IH]; cbn [countOwn lookup].
  - destruct (String.eqb code code'); reflexivity.
  - destruct (String.eqb_spec c code) as [->|N]; cbn [lookup].
    + destruct (String.eqb code code'); reflexivity.
    + rewrite IH.
      destruct (String.eqb_spec code code') as [<-|N'].
      * destruct (String.eqb_spec c code); [congruence | reflexivity].
      * reflexivity.
Qed.

Lemma lookup_fold_inherited (code : string) (records : list Attendance.doc) :
  inherited code = true ->
  forall acc,
    lookup code
      (fold_left
         (fun stats record =>
            countRecord (Attendance.courseCode record) (Attendance.status record) stats)
         records acc)
    = lookup code acc.
Proof.
  intros I; induction records as [|d records IH]; intros acc; cbn [fold_left];
    [reflexivity|].
  rewrite IH; unfold countRecord.
  destruct (inherited (Attendance.courseCode d)) eqn:Id; [reflexivity|].
  rewrite lookup_countOwn.
  destruct (String.eqb_spec (Attendance.courseCode d) code) as [E|_]; [|reflexivity].
  rewrite E in Id; congruence.
Qed.

Lemma lookup_fold (code : string) (records : list Attendance.doc) :
  inherited code = false ->
  forall acc,
    lookup code
      (fold_left
         (fun stats record =>
            countRecord (Attendance.courseCode record) (Attendance.status record) stats)
         records acc)
    = match inCourse code records, lookup code acc with
      | [], found => found
      | rs, Some c => Some (plusRecords c rs)
      | rs, None => Some (plusRecords emptyStat rs)
      end.
Proof.
  intros I; induction records as [|d records IH]; intros acc;
    cbn [fold_left inCourse filter].
  - destruct (lookup code acc); reflexivity.
  - rewrite IH; fold (inCourse code records).
    assert (L : lookup code
                  (countRecord (Attendance.courseCode d) (Attendance.status d) acc)
                = if String.eqb (Attendance.courseCode d) code
                  then Some (count (Attendance.status d)
                               (match lookup (Attendance.courseCode d) acc with
                                | Some c => c
                                | None => emptyStat
                                end))
                  else lookup code acc).
    { unfold countRecord.
      destruct (inherited (Attendance.courseCode d)) eqn:Id;
        [|apply lookup_countOwn].
      destruct (String.eqb_spec (Attendance.courseCode d) code) as [E|_];
        [|reflexivity].
      rewrite E in Id; congruence. }
    rewrite L; clear L.
    destruct (String.eqb_spec (Attendance.courseCode d) code) as [E|N].
    + destruct (inCourse code records) as [|r rs] eqn:R.
      * destruct (lookup (Attendance.courseCode d) acc) eqn:L; rewrite E in L; rewrite L;
          f_equal; apply stat_eq; unfold plusRecords, countStatus;
          cbn [filter existsb List.length];
          destruct (Attendance.status d);
          cbn [count status_eqb total present late absent excusedIsNaN List.length
                 orb emptyStat];
          rewrite ?orb_false_r; try lia; reflexivity.
      * rewrite E; destruct (lookup code acc); cbv beta iota zeta;
          rewrite plus_cons; reflexivity.
    + reflexivity.
Qed.

Lemma courseStats_lookup (records : list Attendance.doc) (code : string) :
  lookup code (courseStats records)
  = if inherited code then None
    else match inCourse code records with
         | [] => None
         | _ :: _ => Some (statOf (inCourse code records))
         end.
Proof.
  unfold courseStats; destruct (inherited code) eqn:I.
  - rewrite (lookup_fold_inherited code records I); reflexivity.
  - rewrite (lookup_fold code records I); cbn [lookup].
    destruct (inCourse code records) as [|r rs]; [reflexivity|].
    cbv beta iota zeta; f_equal; apply stat_eq; reflexivity.
Qed.

End DashboardFacts.

Section DashboardOnLedger.
Import Dashboard.

Lemma handler_records_counts (records : list Attendance.doc) :
  Forall recordOk records ->
  countStatus Attendance.absent records = 0
  /\ countStatus Attendance.excused records = 0
  /\ existsb (fun d => status_eqb (Attendance.status d) Attendance.excused) records = false.
Proof.
  unfold countStatus; induction 1 as [|d records Hd _ [IH1 [IH2 IH3]]];
    [repeat split|].
  destruct Hd as [[[S _] | [S _]] _]; cbn [filter existsb]; rewrite S;
    cbn [status_eqb orb]; auto.
Qed.

Lemma Forall_filter {A} (P : A -> Prop) (f : A -> bool) (l : list A) :
  Forall P l -> Forall P (filter f l).
Proof.
  intros H; apply Forall_forall; intros x Hx; apply filter_In in Hx as [Hx _].
  revert x Hx; now apply Forall_forall.
Qed.

(** X18: on a reachable store the student dashboard never reports an
    absence: absentSessions is 0, the total is present plus late, and every
    courseStats entry has at least one record, no absent one and no NaN
    counter. *)
Theorem dashboard_without_absences (s : Store) (sid : string) (status : Z)
    (msg : option string) (st : Statistics) (cs : CourseStats) :
  reachable s ->
  studentDashboard sid s = Replied status msg (st, cs) ->
  absentSessions st = 0
  /\ totalSessions st = presentSessions st + lateSessions st
  /\ forall code c, lookup code cs = Some c ->
       absent c = 0 /\ excusedIsNaN c = false /\ total c = present c + late c
       /\ 0 < total c.
Proof.
  intros R; unfold studentDashboard.
  destruct (User.findOne (users s) sid); [|discriminate].
  intros H; inversion H; subst; clear H.
  pose proof (reachable_records_ok s R) as W.
  assert (Wf : Forall recordOk (find (attendance s) sid))
    by (apply Forall_filter; exact W).
  destruct (handler_records_counts _ Wf) as [A [E _]].
  destruct (statistics_split (find (attendance s) sid)) as [P [Q _]].
  cbv zeta in *; split; [lia|]; split; [lia|].
  intros code c L; rewrite courseStats_lookup in L.
  destruct (inherited code); [discriminate|].
  destruct (inCourse code (find (attendance s) sid)) as [|r rs] eqn:I; [discriminate|].
  inversion L; subst c; clear L.
  assert (Wc : Forall recordOk (r :: rs))
    by (rewrite <- I; apply Forall_filter; exact Wf).
  destruct (handler_records_counts _ Wc) as [A' [E' X']].
  pose proof (status_count_split (r :: rs)) as Sp.
  unfold statOf; cbn [absent excusedIsNaN total present late].
  repeat split; try assumption; try lia.
Qed.

End DashboardOnLedger.

Section ClientFacts.
Import Client.

(** X22: toggleCourseSelection flips the membership of the toggled
    course and of no other, keeps a selection free of duplicates so, and
    toggling twice a course that was not selected gives the selection
    back. *)
Theorem toggleCourseSelection_flips (l : list string) (c : string) :
  (In c (toggleCourseSelection l c) <-> ~ In c l)
  /\ (forall x, x <> c -> (In x (toggleCourseSelection l c) <-> In x l))
  /\ (NoDup l -> NoDup (toggleCourseSelection l c))
  /\ (~ In c l -> toggleCourseSelection (toggleCourseSelection l c) c = l).
Proof.
  unfold toggleCourseSelection, Js.includes.
  assert (M : existsb (String.eqb c) l = true <-> In c l).
  { rewrite existsb_exists; split.
    - intros [x [Hx E]]; apply String.eqb_eq in E; subst; exact Hx.
    - intros H; exists c; split; [exact H | apply String.eqb_refl]. }
  assert (F : forall l', ~ In c l' ->
              filter (fun code => negb (String.eqb code c)) l' = l').
  { induction l' as [|x l' IH]; intros N; [reflexivity|].
    cbn [filter]; destruct (String.eqb_spec x c) as [->|_]; cbn [negb].
    - exfalso; apply N; left; reflexivity.
    - rewrite IH; [reflexivity | intros H; apply N; right; exact H]. }
  destruct (existsb (String.eqb c) l) eqn:E.
  - assert (I : In c l) by (apply M; reflexivity).
    split; [|split; [|split]].
    + split; [|intros N; contradiction].
      intros H; apply filter_In in H as [_ H].
      rewrite String.eqb_refl in H; discriminate.
    + intros x Nx; split.
      * intros H; apply filter_In in H as [H _]; exact H.
      * intros H; apply filter_In; split; [exact H|].
        destruct (String.eqb_spec x c); [congruence | reflexivity].
    + intros N; apply NoDup_filter; exact N.
    + intros N; contradiction.
  - assert (I : ~ In c l) by (intros H; apply M in H; congruence).
    split; [|split; [|split]].
    + split; [intros _; exact I|].
      intros _; apply in_or_app; right; left; reflexivity.
    + intros x Nx; split.
      * intros H; apply in_app_or in H as [H|[H|[]]]; [exact H | congruence].
      * intros H; apply in_or_app; left; exact H.
    + intros N; apply NoDup_app; [exact N | repeat constructor; intros [] |].
      intros x Hx [<-|[]]; contradiction.
    + intros _.
      assert (E2 : existsb (String.eqb c) (l ++ [c]) = true).
      { rewrite existsb_app; cbn [existsb]; rewrite String.eqb_refl; cbn [orb].
        apply orb_true_r. }
      rewrite E2, filter_app, (F l I); cbn [filter].
      rewrite String.eqb_refl; cbn [negb]; apply app_nil_r.
Qed.

End ClientFacts.

Section AcademicYear.
Import Client.

Lemma isDigit_In (c : ascii) : JsString.isDigit c = true -> In c digitChars.
Proof.
  destruct c as [[] [] [] [] [] [] [] []]; vm_compute; intros H;
    first [discriminate H | auto 12].
Qed.

Lemma fourDigits_readBack : forallb readsBack fourDigits = true.
Proof. vm_compute; reflexivity. Qed.

Lemma four_digits (a b c d : ascii) :
  forallb JsString.isDigit [a; b; c; d] = true ->
  exists y, JsString.parseInt (string_of_list_ascii [a; b; c; d]) = Some y
            /\ 0 <= y <= 9999
            /\ Js.fixedDigits 4 y = string_of_list_ascii [a; b; c; d].
Proof.
  cbn [forallb]; rewrite !andb_true_iff; intros [Ha [Hb [Hc [Hd _]]]].
  pose proof fourDigits_readBack as R; rewrite forallb_forall in R.
  specialize (R (a, (b, (c, d)))).
  assert (I : In (a, (b, (c, d))) fourDigits)
    by (unfold fourDigits; repeat (apply in_prod; [apply isDigit_In; assumption|]);
        apply isDigit_In; assumption).
  specialize (R I); unfold readsBack in R.
  destruct (JsString.parseInt (string_of_list_ascii [a; b; c; d])) as [y|];
    [|discriminate R].
  apply andb_true_iff in R as [R E]; apply andb_true_iff in R as [L U].
  exists y; repeat split; [lia | lia | now apply String.eqb_eq].
Qed.

Lemma academicYear_all_accepted :
  forallb (fun n => isValidAcademicYear (academicYear (Z.of_nat n))) (seq 0 (Z.to_nat 9999)) = true.
Proof. vm_compute; reflexivity. Qed.

(** X23: isValidAcademicYear accepts exactly the empty text and the
    texts "YYYY-ZZZZ" of two four-digit years with ZZZZ = YYYY + 1, that is
    the academic years starting in 0000 to 9998. *)
Theorem isValidAcademicYear_exactly (text : string) :
  isValidAcademicYear text = true
  <-> text = "" \/ exists start, 0 <= start <= 9998 /\ text = academicYear start.
Proof.
  split.
  - unfold isValidAcademicYear.
    destruct (String.eqb_spec text "") as [->|N]; [auto|].
    destruct text as [|a [|b [|c [|d [|sep [|e [|f [|g [|h [|]]]]]]]]]]; try discriminate.
    destruct (forallb JsString.isDigit [a; b; c; d; e; f; g; h] && Ascii.eqb sep "-")%bool
      eqn:D; [|discriminate].
    apply andb_true_iff in D as [D S]; apply Ascii.eqb_eq in S; subst sep.
    cbn [forallb] in D; rewrite !andb_true_iff in D.
    destruct D as [Ha [Hb [Hc [Hd [He [Hf [Hg [Hh _]]]]]]]].
    destruct (four_digits a b c d) as [y [Py [Ry Fy]]];
      [cbn [forallb]; rewrite Ha, Hb, Hc, Hd; reflexivity|].
    destruct (four_digits e f g h) as [z [Pz [Rz Fz]]];
      [cbn [forallb]; rewrite He, Hf, Hg, Hh; reflexivity|].
    rewrite Py, Pz; intros E; apply Z.eqb_eq in E; subst z.
    right; exists y; split; [lia|].
    unfold academicYear; rewrite Fy, Fz; reflexivity.
  - intros [-> | [start [R ->]]]; [reflexivity|].
    pose proof academicYear_all_accepted as A; rewrite forallb_forall in A.
    specialize (A (Z.to_nat start)); rewrite Z2Nat.id in A by lia.
    apply A, in_seq; lia.
Qed.

End AcademicYear.

Section DateRoundTrip.
Import Client.

Lemma string_of_uint_digits (u : Decimal.uint) :
  digitsOnly (NilEmpty.string_of_uint u).
Proof.
  unfold digitsOnly; induction u; cbn [NilEmpty.string_of_uint list_ascii_of_string forallb];
    try reflexivity; rewrite IHu; reflexivity.
Qed.

Lemma digitPrefix_digits (s : string) : digitsOnly s -> JsString.digitPrefix s = s.
Proof.
  unfold digitsOnly; induction s as [|c s IH]; [reflexivity|].
  cbn [list_ascii_of_string forallb JsString.digitPrefix].
  intros H; apply andb_true_iff in H as [Hc Hs]; rewrite Hc, (IH Hs); reflexivity.
Qed.

Lemma trimStart_digits (s : string) : digitsOnly s -> JsString.trimStart s = s.
Proof.
  unfold digitsOnly; destruct s as [|c s]; [reflexivity|].
  cbn [list_ascii_of_string forallb JsString.trimStart].
  intros H; apply andb_true_iff in H as [Hc _].
  destruct c as [[] [] [] [] [] [] [] []]; try discriminate Hc; reflexivity.
Qed.

Lemma split_digits (s t : string) :
  digitsOnly s ->
  JsString.split "-" (s ++ "-" ++ t) = s :: JsString.split "-" t.
Proof.
  change ("-" ++ t) with (String "-" t).
  unfold digitsOnly; induction s as [|c s IH]; [reflexivity|].
  cbn [list_ascii_of_string forallb String.append JsString.split].
  intros H; apply andb_true_iff in H as [Hc Hs]; rewrite (IH Hs).
  destruct c as [[] [] [] [] [] [] [] []]; try discriminate Hc; reflexivity.
Qed.

Lemma split_digits_end (s : string) :
  digitsOnly s -> JsString.split "-" s = [s].
Proof.
  unfold digitsOnly; induction s as [|c s IH]; [reflexivity|].
  cbn [list_ascii_of_string forallb JsString.split].
  intros H; apply andb_true_iff in H as [Hc Hs]; rewrite (IH Hs).
  destruct c as [[] [] [] [] [] [] [] []]; try discriminate Hc; reflexivity.
Qed.

(** [parseInt] reads a digit string, with or without leading zeros, as
    the number it denotes. *)
Lemma parseInt_uint (u : Decimal.uint) :
  u <> Decimal.Nil ->
  JsString.parseInt (NilEmpty.string_of_uint u) = Some (Z.of_uint u).
Proof.
  intros N; unfold JsString.parseInt.
  pose proof (string_of_uint_digits u) as D.
  rewrite (trimStart_digits _ D).
  assert (B : match NilEmpty.string_of_uint u with
              | String "-" rest => (true, rest)
              | String "+" rest => (false, rest)
              | _ => (false, NilEmpty.string_of_uint u)
              end = (false, NilEmpty.string_of_uint u)).
  { destruct u; try reflexivity. }
  rewrite B, (digitPrefix_digits _ D), NilEmpty.usu.
  destruct u; [congruence | reflexivity..].
Qed.

Lemma showInt_pos (p : positive) :
  showInt (Z.pos p) = NilEmpty.string_of_uint (Pos.to_uint p).
Proof.
  unfold showInt; cbn [Z.to_int NilZero.string_of_int].
  unfold NilZero.string_of_uint.
  pose proof (DecimalPos.Unsigned.to_uint_nonnil p) as N.
  destruct (Pos.to_uint p); [congruence | reflexivity..].
Qed.

Lemma of_uint_pos (p : positive) : Z.of_uint (Pos.to_uint p) = Z.pos p.
Proof.
  unfold Z.of_uint; rewrite DecimalPos.Unsigned.of_to; reflexivity.
Qed.

Lemma pad2_pos (p : positive) :
  digitsOnly (pad2 (Z.pos p))
  /\ JsString.parseInt (pad2 (Z.pos p)) = Some (Z.pos p).
Proof.
  unfold pad2; rewrite showInt_pos.
  pose proof (string_of_uint_digits (Pos.to_uint p)) as D.
  pose proof (DecimalPos.Unsigned.to_uint_nonnil p) as N.
  pose proof (parseInt_uint (Pos.to_uint p) N) as P; rewrite of_uint_pos in P.
  unfold JsString.padStart2.
  destruct (String.length (NilEmpty.string_of_uint (Pos.to_uint p))) as [|[|n]] eqn:L.
  - destruct (Pos.to_uint p); try congruence; discriminate L.
  - split.
    + unfold digitsOnly in *; cbn [String.append list_ascii_of_string forallb].
      rewrite D; reflexivity.
    + change ("0" ++ NilEmpty.string_of_uint (Pos.to_uint p))
        with (NilEmpty.string_of_uint (Decimal.D0 (Pos.to_uint p))).
      rewrite parseInt_uint by discriminate.
      rewrite <- of_uint_pos; reflexivity.
  - split; assumption.
Qed.

(** X24: for integers within the safe range of JavaScript numbers (at
    most 2^53 - 1 in absolute value), parseDateString reads back what
    formatDate wrote, for a positive month and day, when the year is
    positive; for a year of zero or below it falls back to today's
    date. *)
Theorem date_round_trip (today : Z * Z * Z) (y m d : Z) :
  - Js.MAX_SAFE_INTEGER <= y <= Js.MAX_SAFE_INTEGER ->
  0 < m <= Js.MAX_SAFE_INTEGER ->
  0 < d <= Js.MAX_SAFE_INTEGER ->
  parseDateString today (formatDate y m d)
  = if 0 <? y then (y, m, d) else today.
Proof.
  intros _ [Hm _] [Hd _]; unfold parseDateString, formatDate.
  destruct m as [|pm|pm]; try lia; destruct d as [|pd|pd]; try lia.
  destruct (pad2_pos pm) as [Dm Pm], (pad2_pos pd) as [Dd Pd].
  destruct y as [|py|py]; cbn [Z.ltb Z.compare].
  - change (showInt 0) with "0".
    rewrite (split_digits "0" _ eq_refl); cbn [map].
    rewrite (split_digits _ _ Dm), (split_digits_end _ Dd); cbn [map].
    rewrite Pm, Pd; reflexivity.
  - rewrite showInt_pos.
    rewrite (split_digits _ _ (string_of_uint_digits _)).
    rewrite (split_digits _ _ Dm), (split_digits_end _ Dd); cbn [map].
    rewrite (parseInt_uint _ (DecimalPos.Unsigned.to_uint_nonnil py)), of_uint_pos, Pm, Pd.
    reflexivity.
  - unfold showInt; cbn [Z.to_int NilZero.string_of_int String.append JsString.split].
    change (Ascii.eqb "-" "-") with true; cbv iota.
    cbn [map]. reflexivity.
Qed.

End DateRoundTrip.

Section Courses.

Lemma findCourseByCode_None (cs : list Course.doc) (code : string) :
  findCourseByCode cs code = None <-> ~ In code (map Course.courseCode cs).
Proof.
  unfold findCourseByCode; induction cs as [|c cs IH]; cbn [find map In].
  - split; [intros _ [] | reflexivity].
  - destruct (String.eqb_spec (Course.courseCode c) code) as [E|N].
    + split; [discriminate | intros H; exfalso; apply H; left; exact E].
    + rewrite IH; split; [intros H [E|I]; [congruence | auto] | intros H I; apply H; right; exact I].
Qed.

Lemma Course_findOne_app_fresh (cs : list Course.doc) (c : Course.doc) (code : string) :
  ~ In (Course.courseCode c) (map Course.courseCode cs) ->
  Course.findOne (cs ++ [c]) code
  = if String.eqb code (Course.courseCode c)
    then (if Course.isActive c then Some c else None)
    else Course.findOne cs code.
Proof.
  unfold Course.findOne; induction cs as [|x cs IH]; cbn [app find map In]; intros N.
  - rewrite (String.eqb_sym code).
    destruct (String.eqb (Course.courseCode c) code), (Course.isActive c); reflexivity.
  - assert (Nx : Course.courseCode x <> Course.courseCode c) by (intros E; apply N; left; exact E).
    rewrite IH by (intros I; apply N; right; exact I).
    destruct (String.eqb_spec code (Course.courseCode c)) as [E|_]; [|reflexivity].
    rewrite E.
    destruct (String.eqb_spec (Course.courseCode x) (Course.courseCode c)); [congruence|].
    reflexivity.
Qed.

(** X20: for a course code and name of ASCII characters, a course
    creation that succeeds answers 201 with the course under its
    upper-cased code, which no course had before; afterwards the handlers'
    lookup by that code finds the new course, a lookup by any other code
    gives what it gave before, and users, attendance and notifications are
    untouched. *)
Theorem createCourse_effect (courseCode courseName : option string) (s : Store)
    (st : Z) (msg : option string) (course : Course.doc) :
  Js.isAscii (text courseCode) = true ->
  Js.isAscii (text courseName) = true ->
  fst (createCourse courseCode courseName s) = Replied st msg course ->
  st = 201
  /\ course = {| Course.courseCode := Js.toUpperCase (text courseCode);
                 Course.isActive := true |}
  /\ findCourseByCode (courses s) (Js.toUpperCase (text courseCode)) = None
  /\ (forall code,
        Course.findOne (courses (snd (createCourse courseCode courseName s))) code
        = if String.eqb code (Js.toUpperCase (text courseCode))
          then Some course
          else Course.findOne (courses s) code)
  /\ users (snd (createCourse courseCode courseName s)) = users s
  /\ attendance (snd (createCourse courseCode courseName s)) = attendance s
  /\ notifications (snd (createCourse courseCode courseName s)) = notifications s.
Proof.
  intros _ _; unfold createCourse.
  destruct (missing courseCode || missing courseName)%bool; [discriminate|].
  destruct (findCourseByCode (courses s) (Js.toUpperCase (text courseCode))) eqn:F;
    [discriminate|].
  destruct (String.eqb (JsString.trim (text courseName)) ""); [discriminate|].
  cbn [fst snd]; intros H; inversion H; subst; clear H.
  split; [reflexivity|]; split; [reflexivity|]; split; [reflexivity|].
  split; [|repeat split].
  intros code; cbn [courses withCourses].
  rewrite (Course_findOne_app_fresh (courses s)
             {| Course.courseCode := Js.toUpperCase (text courseCode);
                Course.isActive := true |} code
             (proj1 (findCourseByCode_None _ _) F)).
  reflexivity.
Qed.

(** X21: for a course code and name of ASCII characters, course
    creation keeps the stored codes distinct and free of the letters a-z;
    a refused creation changes nothing; and a code whose upper-cased form
    is the code of an existing course is refused with status 400. *)
Theorem createCourse_keeps_codes (courseCode courseName : option string) (s : Store) :
  Js.isAscii (text courseCode) = true ->
  Js.isAscii (text courseName) = true ->
  courseCodesOk (courses s) ->
  courseCodesOk (courses (snd (createCourse courseCode courseName s)))
  /\ (forall st e, fst (createCourse courseCode courseName s) = Refused st e ->
                   snd (createCourse courseCode courseName s) = s)
  /\ (forall c, In c (courses s) ->
        Js.toUpperCase (text courseCode) = Course.courseCode c ->
        fst (createCourse courseCode courseName s)
        = Refused 400 "Course code and name are required"
        \/ fst (createCourse courseCode courseName s)
           = Refused 400 "Course with this code already exists").
Proof.
  intros _ _ [U C]; unfold createCourse.
  destruct (missing courseCode || missing courseName)%bool.
  { split; [split; assumption|]; split; [reflexivity|].
    intros c _ _; left; reflexivity. }
  destruct (findCourseByCode (courses s) (Js.toUpperCase (text courseCode))) eqn:F.
  { split; [split; assumption|]; split; [reflexivity|].
    intros c _ _; right; reflexivity. }
  assert (N : forall c, In c (courses s) ->
                Js.toUpperCase (text courseCode) <> Course.courseCode c).
  { intros c I E; apply findCourseByCode_None in F; apply F.
    rewrite E; apply in_map; exact I. }
  destruct (String.eqb (JsString.trim (text courseName)) "");
    cbn [fst snd courses withCourses].
  - split; [split; assumption|]; split; [reflexivity|].
    intros c I E; exfalso; exact (N c I E).
  - split; [|split; [discriminate|]].
    + split.
      * rewrite map_app; cbn [map Course.courseCode].
        apply NoDup_app; [exact U | repeat constructor; intros [] |].
        intros x Hx [<-|[]]; apply findCourseByCode_None in F; contradiction.
      * apply Forall_app; split; [exact C|].
        repeat constructor; cbn [Course.courseCode]; apply toUpperCase_idempotent.
    + intros c I E; exfalso; exact (N c I E).
Qed.

End Courses.

(* ================================================================== *)
(** * Further properties of the server and client code *)

(** X4: a run of either attendance handler never touches the users or the
    courses; it leaves the ledger as it is or puts exactly one record in
    front of it, a record in the handlers' normal form under the key of the
    request; and it adds at most one notification, only together with a
    late record, addressed to the submitting student. *)
Theorem attendance_handlers_footprint (r : Request) (env : Env) (s : Store) :
  users (after (serve r env s)) = users s
  /\ courses (after (serve r env s)) = courses s
  /\ (attendance (after (serve r env s)) = attendance s
      /\ notifications (after (serve r env s)) = notifications s
      \/ exists d, attendance (after (serve r env s)) = d :: attendance s
                   /\ recordOk d
                   /\ Attendance.keyOf d = keyOfRequest r env
                   /\ (notifications (after (serve r env s)) = notifications s
                       \/ exists n, notifications (after (serve r env s))
                                    = n :: notifications s
                                    /\ Attendance.isLate d = true
                                    /\ Notification.userId n = studentOf r
                                    /\ Notification.courseCode n = Attendance.courseCode d)).
Proof. exact (serve_footprint r env s). Qed.

(** X5: every record of a reachable ledger is in the handlers' normal
    form: present with lateMinutes 0 or late with at least 16 minutes, a
    score that passed the threshold and lies within the schema's bounds,
    and an upper-case course code. *)
Theorem ledger_records_well_formed (s : Store) :
  reachable s -> Forall recordOk (attendance s).
Proof. exact (reachable_records_ok s). Qed.

(** X7: on the embedding endpoint a save refused by the unique index is
    answered 400 "Attendance already marked for today" and the store is
    left as it was. *)
Theorem embedding_race_is_duplicate_rejection
    (req : EmbeddingRequest) (env : Env) (s : Store) (d : Attendance.doc) :
  In (AttendanceSave d (Some Attendance.DuplicateKey))
     (events (markAttendance req env s)) ->
  response (markAttendance req env s)
  = Failure 400 "Attendance already marked for today"
  /\ after (markAttendance req env s) = s.
Proof. exact (embedding_commit_race_is_rejection req env s d). Qed.

(** X10: a face registration by embedding succeeds only for an array of
    64 to 1024 finite numbers and an existing student; it then stores
    exactly those numbers on that student's document and changes nothing
    else: no other student, course, attendance record or notification. *)
Theorem registerFace_effect (sid : string) (encodings : option (list Json))
    (s : Store) (st : Z) (msg : option string) :
  fst (registerFace sid encodings s) = Replied st msg tt ->
  exists vs u,
    encodings = Some vs
    /\ vs = map JNumber (numbersOf vs)
    /\ (64 <= List.length (numbersOf vs) <= 1024)%nat
    /\ forallb (fun x => negb (PrimFloat.is_nan x || PrimFloat.is_infinity x))
         (numbersOf vs) = true
    /\ User.findOne (users s) sid = Some u
    /\ User.findOne (users (snd (registerFace sid encodings s))) sid
       = Some (setFaceEncodings (numbersOf vs) u)
    /\ (forall sid', sid' <> sid ->
          User.findOne (users (snd (registerFace sid encodings s))) sid'
          = User.findOne (users s) sid')
    /\ courses (snd (registerFace sid encodings s)) = courses s
    /\ attendance (snd (registerFace sid encodings s)) = attendance s
    /\ notifications (snd (registerFace sid encodings s)) = notifications s.
Proof. exact (registerFace_success sid encodings s st msg). Qed.

(** X12: after a successful face registration by image, the face status
    route reports the student as registered exactly when the provider's
    token for the first detected face is a non-empty string; the status of
    every other student is unchanged. *)
Theorem image_registration_sets_status
    (cfg : FaceppConfig) (reply : detectReply) (sid : string)
    (imageBase64 : option string) (s : Store) (st : Z) (msg : option string) :
  fst (registerFaceImage cfg reply sid imageBase64 s) = Replied st msg tt ->
  exists tokens t,
    reply = DetectFaces (t :: tokens)
    /\ faceStatus sid (snd (registerFaceImage cfg reply sid imageBase64 s))
       = Replied 200 None (negb (missing t))
    /\ (forall sid', sid' <> sid ->
          faceStatus sid' (snd (registerFaceImage cfg reply sid imageBase64 s))
          = faceStatus sid' s).
Proof. exact (registerFaceImage_success cfg reply sid imageBase64 s st msg). Qed.

(** X16: in the dashboard statistics the three classes add up to the
    total; absentSessions, computed as the rest, is never negative and is
    the number of records whose status is absent or excused. *)
Theorem statistics_partition (records : list Attendance.doc) :
  let st := Dashboard.statistics records in
  Dashboard.totalSessions st
  = Dashboard.presentSessions st + Dashboard.lateSessions st
    + Dashboard.absentSessions st
  /\ Dashboard.absentSessions st
     = Dashboard.countStatus Attendance.absent records
       + Dashboard.countStatus Attendance.excused records
  /\ 0 <= Dashboard.presentSessions st
  /\ 0 <= Dashboard.lateSessions st
  /\ 0 <= Dashboard.absentSessions st.
Proof. exact (statistics_split records). Qed.

(** X17: courseStats has an entry of its own for a course code exactly
    when the code is not a name inherited from Object.prototype and the
    student has a record in that course; the entry counts that course's
    records: all of them in total, and those present, late and absent in
    their counters; an excused record only leaves the NaN property
    behind. *)
Theorem courseStats_counts (records : list Attendance.doc) (code : string) :
  Dashboard.lookup code (Dashboard.courseStats records)
  = if Dashboard.inherited code then None
    else match Dashboard.inCourse code records with
         | [] => None
         | _ :: _ => Some (statOf (Dashboard.inCourse code records))
         end.
Proof. exact (courseStats_lookup records code). Qed.

(* ================================================================== *)
(** ** The further properties at the sample deployment *)

Lemma cosine_fails_closed_witness :
  (existsb PrimFloat.is_nan [nan; 1%float]
   || existsb PrimFloat.is_nan [1%float; 1%float])%bool = true
  /\ Oracle.computeCosineSimilarity [nan; 1%float] [1%float; 1%float] = 0%float.
Proof.
  split; [reflexivity|].
  apply cosine_fails_closed.
  right; right; right; left; reflexivity.
Defined.

Lemma oracle_failure_is_verification_failure_witness :
  In (OracleCall None) (events (serve Sample.image Demo.offline Sample.store0))
  /\ Oracle.faceppCompare (provider Demo.offline) = None
  /\ response (serve Sample.image Demo.offline Sample.store0)
     = Failure 400 "Face verification failed. Please try again."
  /\ after (serve Sample.image Demo.offline Sample.store0) = Sample.store0.
Proof.
  assert (H : In (OracleCall None)
                 (events (serve Sample.image Demo.offline Sample.store0)))
    by (vm_compute; auto 10).
  split; [exact H|].
  destruct (oracle_failure_is_verification_failure Sample.image Demo.offline
              Sample.store0) as [[F _] G].
  split; [exact (proj1 (proj2 (F H))) | exact (G H)].
Defined.

Lemma ledger_records_well_formed_witness :
  reachable Sample.marked /\ Forall recordOk (attendance Sample.marked).
Proof.
  assert (R : reachable Sample.marked)
    by (apply reach_mark; apply reach_start).
  split; [exact R | exact (ledger_records_well_formed _ R)].
Defined.

Lemma second_submission_is_rejected_witness :
  let later := Sample.at_ (Sample.nine + Sample.minutes 30) 99%float in
  response (serve Sample.image Demo.morning Sample.store0)
  = Success "Attendance marked successfully"
      (Sample.record Attendance.present 0.9%float false 0)
  /\ response (serve Sample.image later Sample.marked)
     = Failure 400 "Attendance already marked for today in this course"
  /\ after (serve Sample.image later Sample.marked) = Sample.marked.
Proof.
  cbv zeta.
  assert (H : response (serve Sample.image Demo.morning Sample.store0)
              = Success "Attendance marked successfully"
                  (Sample.record Attendance.present 0.9%float false 0))
    by (vm_compute; reflexivity).
  split; [exact H|].
  apply (second_submission_is_rejected Sample.image Demo.morning
           (Sample.at_ (Sample.nine + Sample.minutes 30) 99%float)
           Sample.store0 _ _ H).
  - vm_compute; reflexivity.
  - reflexivity.
Defined.

Lemma embedding_race_is_duplicate_rejection_witness :
  let t := Sample.nine + Sample.minutes 10 in
  let first := after (serve (Sample.embedding Sample.probe)
                        (Sample.at_ t 85%float) Sample.store0) in
  let d := Sample.record Attendance.present SIMILARITY_THRESHOLD false 0 in
  In (AttendanceSave d (Some Attendance.DuplicateKey))
     (events (serve (Sample.embedding Sample.probe) (Sample.racing t 85%float) first))
  /\ response (serve (Sample.embedding Sample.probe) (Sample.racing t 85%float) first)
     = Failure 400 "Attendance already marked for today"
  /\ after (serve (Sample.embedding Sample.probe) (Sample.racing t 85%float) first)
     = first.
Proof.
  cbv zeta.
  assert (H : In (AttendanceSave
                    (Sample.record Attendance.present SIMILARITY_THRESHOLD false 0)
                    (Some Attendance.DuplicateKey))
                 (events (markAttendance
                    {| e_studentId := "S001"; e_courseCode := Some "ict651";
                       e_faceData := Some Sample.probe |}
                    (Sample.racing (Sample.nine + Sample.minutes 10) 85%float)
                    (after (serve (Sample.embedding Sample.probe)
                              (Sample.at_ (Sample.nine + Sample.minutes 10) 85%float)
                              Sample.store0)))))
    by (vm_compute; auto 10).
  split; [exact H|].
  exact (embedding_race_is_duplicate_rejection _ _ _ _ H).
Defined.

Lemma authenticateToken_scheme_unchecked_witness :
  spaceFree "Basic" /\ spaceFree "alice-token"
  /\ Auth.authenticateToken Demo.verify (Some "Basic alice-token")
     = inr (Auth.StudentToken "S001").
Proof.
  assert (A : spaceFree "Basic")
    by (intros n; do 6 (destruct n as [|n]; [vm_compute; discriminate|]);
        vm_compute; discriminate).
  assert (B : spaceFree "alice-token")
    by (intros n; do 12 (destruct n as [|n]; [vm_compute; discriminate|]);
        vm_compute; discriminate).
  split; [exact A|]; split; [exact B|].
  exact (authenticateToken_scheme_unchecked Demo.verify "Basic" "alice-token" A B).
Defined.

Lemma attendanceRoute_guard_witness :
  after (attendanceRoute Demo.verify (Some "Bearer admin-token") Demo.body
           Demo.morning Sample.store0) = Sample.store0
  /\ attendanceRoute Demo.verify (Some "Bearer alice-token") Demo.body
       Demo.morning Sample.store0
     = serve Sample.image Demo.morning Sample.store0.
Proof.
  split.
  - apply (proj1 (attendanceRoute_guard Demo.verify (Some "Bearer admin-token")
                    Demo.body Demo.morning Sample.store0)).
    intros sid; vm_compute; discriminate.
  - apply (proj2 (attendanceRoute_guard Demo.verify (Some "Bearer alice-token")
                    Demo.body Demo.morning Sample.store0) "S001").
    vm_compute; reflexivity.
Defined.

Lemma registerFace_effect_witness :
  fst (registerFace "S002" (Some Demo.encodings) Sample.store0)
  = Replied 200 (Some "Face encodings registered successfully") tt
  /\ exists vs u,
       Some Demo.encodings = Some vs
       /\ User.findOne (users Sample.store0) "S002" = Some u
       /\ User.findOne
            (users (snd (registerFace "S002" (Some Demo.encodings) Sample.store0)))
            "S002"
          = Some (setFaceEncodings (numbersOf vs) u).
Proof.
  assert (H : fst (registerFace "S002" (Some Demo.encodings) Sample.store0)
              = Replied 200 (Some "Face encodings registered successfully") tt)
    by (vm_compute; reflexivity).
  split; [exact H|].
  destruct (registerFace_effect _ _ _ _ _ H)
    as [vs [u [E [_ [_ [_ [F [G _]]]]]]]].
  exists vs, u; split; [exact E|]; split; [exact F | exact G].
Defined.

Lemma registration_refusal_changes_nothing_witness :
  snd (registerFace "S009" (Some Demo.encodings) Sample.store0) = Sample.store0
  /\ snd (registerFaceImage Demo.noKeys Demo.oneFace "S001" (Some "AAAA") Sample.store0)
     = Sample.store0.
Proof.
  split.
  - apply (proj1 (registration_refusal_changes_nothing Demo.noKeys Demo.oneFace
                    "S009" (Some Demo.encodings) (Some "AAAA") Sample.store0)
             404 "Student not found").
    vm_compute; reflexivity.
  - apply (proj2 (proj2 (registration_refusal_changes_nothing Demo.noKeys Demo.oneFace
                           "S001" None (Some "AAAA") Sample.store0))).
    left; reflexivity.
Defined.

Lemma image_registration_sets_status_witness :
  fst (registerFaceImage Demo.faceppKeys Demo.oneFace "S002" (Some "AAAA") Sample.store0)
  = Replied 200 (Some "Face registered successfully") tt
  /\ faceStatus "S002" Sample.store0 = Replied 200 None false
  /\ exists tokens t,
       Demo.oneFace = DetectFaces (t :: tokens)
       /\ faceStatus "S002"
            (snd (registerFaceImage Demo.faceppKeys Demo.oneFace "S002" (Some "AAAA")
                    Sample.store0))
          = Replied 200 None (negb (missing t)).
Proof.
  assert (H : fst (registerFaceImage Demo.faceppKeys Demo.oneFace "S002" (Some "AAAA")
                     Sample.store0)
              = Replied 200 (Some "Face registered successfully") tt)
    by (vm_compute; reflexivity).
  split; [exact H|]; split; [vm_compute; reflexivity|].
  destruct (image_registration_sets_status _ _ _ _ _ _ _ H) as [tokens [t [E [F _]]]].
  exists tokens, t; split; [exact E | exact F].
Defined.

Lemma registration_enables_attendance_witness :
  response (markAttendance
              {| e_studentId := "S002"; e_courseCode := Some "ict651";
                 e_faceData := Some Sample.three |}
              Demo.morning
              (snd (registerFace "S002" (Some Demo.encodings) Sample.store0)))
  <> noEncodings
  /\ response (markAttendanceImage
                 {| i_studentId := "S002"; i_courseCode := Some "ict651";
                    i_imageBase64 := Some "AAAA" |}
                 Demo.morning
                 (snd (registerFaceImage Demo.faceppKeys Demo.oneFace "S002"
                         (Some "AAAA") Sample.store0)))
     <> noFaceToken.
Proof.
  split.
  - apply (proj1 (registration_enables_attendance Demo.faceppKeys Demo.oneFace "S002"
                    Sample.store0 200 (Some "Face encodings registered successfully")
                    Demo.morning (Some "ict651"))
             Demo.encodings (Some Sample.three)).
    vm_compute; reflexivity.
  - apply (proj2 (registration_enables_attendance Demo.faceppKeys Demo.oneFace "S002"
                    Sample.store0 200 (Some "Face registered successfully")
                    Demo.morning (Some "ict651"))
             (Some "AAAA") (Some "AAAA") "face-token-2" []).
    + vm_compute; reflexivity.
    + reflexivity.
    + discriminate.
Defined.

Lemma stored_encodings_stay_valid_witness :
  encodingsInvariant Sample.store0
  /\ encodingsInvariant (snd (registerFace "S002" (Some Demo.encodings) Sample.store0))
  /\ encodingsInvariant (after (serve Sample.image Demo.morning Sample.store0)).
Proof.
  assert (I : encodingsInvariant Sample.store0).
  { unfold encodingsInvariant; cbn [users Sample.store0].
    repeat constructor; right; vm_compute; repeat split; repeat constructor. }
  split; [exact I|].
  destruct (stored_encodings_stay_valid Demo.faceppKeys Demo.oneFace "S002"
              (Some Demo.encodings) (Some "AAAA") Sample.image Demo.morning
              Sample.store0 I) as [A [_ C]].
  split; [exact A | exact C].
Defined.

Lemma dashboard_without_absences_witness :
  let st := {| Dashboard.totalSessions := 1; Dashboard.presentSessions := 1;
               Dashboard.lateSessions := 0; Dashboard.absentSessions := 0 |} in
  let c := {| Dashboard.total := 1; Dashboard.present := 1; Dashboard.late := 0;
              Dashboard.absent := 0; Dashboard.excusedIsNaN := false |} in
  reachable Sample.marked
  /\ studentDashboard "S001" Sample.marked = Replied 200 None (st, [("ICT651", c)])
  /\ Dashboard.absentSessions st = 0
  /\ Dashboard.totalSessions st = Dashboard.presentSessions st + Dashboard.lateSessions st.
Proof.
  cbv zeta.
  assert (R : reachable Sample.marked)
    by (apply reach_mark; apply reach_start).
  assert (D : studentDashboard "S001" Sample.marked
              = Replied 200 None
                  ({| Dashboard.totalSessions := 1; Dashboard.presentSessions := 1;
                      Dashboard.lateSessions := 0; Dashboard.absentSessions := 0 |},
                   [("ICT651",
                     {| Dashboard.total := 1; Dashboard.present := 1;
                        Dashboard.late := 0; Dashboard.absent := 0;
                        Dashboard.excusedIsNaN := false |})]))
    by (vm_compute; reflexivity).
  split; [exact R|]; split; [exact D|].
  destruct (dashboard_without_absences _ _ _ _ _ _ R D) as [A [B _]].
  split; [exact A | exact B].
Defined.

Lemma createCourse_effect_witness :
  let course := {| Course.courseCode := "ICT652"; Course.isActive := true |} in
  fst (createCourse (Some "ict652") (Some "Networks") Sample.store0)
  = Replied 201 (Some "Course created successfully") course
  /\ Course.findOne
       (courses (snd (createCourse (Some "ict652") (Some "Networks") Sample.store0)))
       (Js.toUpperCase "Ict652")
     = Some course.
Proof.
  cbv zeta.
  assert (H : fst (createCourse (Some "ict652") (Some "Networks") Sample.store0)
              = Replied 201 (Some "Course created successfully")
                  {| Course.courseCode := "ICT652"; Course.isActive := true |})
    by (vm_compute; reflexivity).
  split; [exact H|].
  destruct (createCourse_effect (Some "ict652") (Some "Networks") Sample.store0
              _ _ _ eq_refl eq_refl H) as [_ [_ [_ [F _]]]].
  exact (F (Js.toUpperCase "Ict652")).
Defined.

Lemma createCourse_keeps_codes_witness :
  courseCodesOk (courses Sample.store0)
  /\ courseCodesOk
       (courses (snd (createCourse (Some "ict652") (Some "Networks") Sample.store0)))
  /\ (fst (createCourse (Some "Ict651") (Some "Again") Sample.store0)
      = Refused 400 "Course code and name are required"
      \/ fst (createCourse (Some "Ict651") (Some "Again") Sample.store0)
         = Refused 400 "Course with this code already exists").
Proof.
  assert (K : courseCodesOk (courses Sample.store0)).
  { split; cbn [courses Sample.store0 map].
    - repeat constructor; intros [].
    - repeat constructor. }
  split; [exact K|]; split.
  - exact (proj1 (createCourse_keeps_codes (Some "ict652") (Some "Networks")
                    Sample.store0 eq_refl eq_refl K)).
  - apply (proj2 (proj2 (createCourse_keeps_codes (Some "Ict651") (Some "Again")
                           Sample.store0 eq_refl eq_refl K)) Sample.ict651).
    + left; reflexivity.
    + vm_compute; reflexivity.
Defined.

Lemma toggleCourseSelection_flips_witness :
  In "ICT652" (Client.toggleCourseSelection ["ICT651"] "ICT652")
  /\ NoDup (Client.toggleCourseSelection ["ICT651"] "ICT652")
  /\ Client.toggleCourseSelection
       (Client.toggleCourseSelection ["ICT651"] "ICT652") "ICT652" = ["ICT651"].
Proof.
  assert (N : ~ In "ICT652" ["ICT651"])
    by (intros [E|[]]; discriminate E).
  assert (D : NoDup ["ICT651"])
    by (repeat constructor; intros []).
  destruct (toggleCourseSelection_flips ["ICT651"] "ICT652") as [A [_ [B C]]].
  split; [exact (proj2 A N)|]; split; [exact (B D) | exact (C N)].
Defined.

Lemma isValidAcademicYear_exactly_witness :
  "2024-2025" = Client.academicYear 2024
  /\ Client.isValidAcademicYear "2024-2025" = true.
Proof.
  split; [reflexivity|].
  apply (proj2 (isValidAcademicYear_exactly "2024-2025")).
  right; exists 2024; split; [lia | reflexivity].
Defined.

Lemma date_round_trip_witness :
  Client.formatDate 2024 1 5 = "2024-01-05"
  /\ Client.parseDateString (2000, 1, 1) (Client.formatDate 2024 1 5) = (2024, 1, 5).
Proof.
  split; [reflexivity|].
  apply (date_round_trip (2000, 1, 1) 2024 1 5); unfold Js.MAX_SAFE_INTEGER; lia.
Defined.
